(** * OCI Intelligent Documentation Assistant: the inference pipeline of demo.py

    A shallow embedding of [src/demo.py]: the Replicate prediction client
    ([run_replicate_model]), the three LangGraph nodes ([router], [command],
    [answer]), the branch function ([route_decision]), the compiled graph
    ([CHAT_GRAPH]) and the request handler ([chat]).

    Python values are untyped here as they are in the program: whatever
    [json.loads] returns is stored in the state as it is, and every field
    access is the dynamic one, with the exception Python raises when the
    value has the wrong shape. *)

From Stdlib Require Import ZArith List String Ascii Bool Lia DecimalString.
From ExtLib Require Import Structures.Monad Structures.MonadExc Data.Monads.EitherMonad.
Import ListNotations.
Import MonadNotation.
Open Scope monad_scope.
Open Scope string_scope.
Open Scope Z_scope.

Set Implicit Arguments.
Local Set Warnings "-register-all".

(** ** Python values *)

(** A Python [float]: a finite binary number [m * 2^e], an infinity or a
    not-a-number.  The sign of a zero is not tracked; neither the truth test
    nor [int()] looks at it. *)
Inductive pyfloat : Type :=
| FNum (m e : Z)
| FInf (negative : bool)
| FNaN.

(** The values [json.loads] can build, which are also the values the program
    sends as JSON.  A dict is kept as its items in insertion order. *)
Inductive value : Type :=
| VNone
| VBool (b : bool)
| VInt (z : Z)
| VFloat (f : pyfloat)
| VStr (s : string)
| VList (items : list value)
| VDict (items : list (string * value)).

(** The exceptions that can travel through the pipeline. *)
Inductive exn : Type :=
| RuntimeError (msg : string)
| KeyError (key : string)
| TypeError
| AttributeError
| ValueError
| OverflowError
| JSONDecodeError
| HTTPStatusError (code : Z)
| TransportError
| GraphRecursionError.

Module Py.

(** [d[k]] on the items of a dict. *)
Fixpoint lookup (k : string) (d : list (string * value)) : option value :=
  match d with
  | [] => None
  | (k', v) :: d' => if String.eqb k k' then Some v else lookup k d'
  end.

(** [bool(v)]: Python's truth test. *)
Definition truthy (v : value) : bool :=
  match v with
  | VNone => false
  | VBool b => b
  | VInt z => negb (z =? 0)
  | VFloat (FNum m _) => negb (m =? 0)
  | VFloat _ => true
  | VStr s => match s with EmptyString => false | String _ _ => true end
  | VList l => match l with [] => false | _ => true end
  | VDict d => match d with [] => false | _ => true end
  end.

(** [v[k]] with a string key. Only a dict can be subscripted by a string:
    a list or a string wants an integer index, the other values are not
    subscriptable at all; both are a [TypeError]. *)
Definition getitem (v : value) (k : string) : exn + value :=
  match v with
  | VDict d => match lookup k d with
               | Some x => inr x
               | None => inl (KeyError k)
               end
  | _ => inl TypeError
  end.

(** [v.get(k, default)]: only a dict has the method. *)
Definition get (v : value) (k : string) (default : value) : exn + value :=
  match v with
  | VDict d => match lookup k d with
               | Some x => inr x
               | None => inr default
               end
  | _ => inl AttributeError
  end.

(** [v == s] for a string literal [s]. *)
Definition eq_str (v : value) (s : string) : bool :=
  match v with
  | VStr s' => String.eqb s' s
  | _ => false
  end.

(** [isinstance(v, list)]. *)
Definition is_list (v : value) : bool :=
  match v with VList _ => true | _ => false end.

(** [isinstance(v, dict)]. *)
Definition is_dict (v : value) : bool :=
  match v with VDict _ => true | _ => false end.

(** [str.join] with the empty separator: every item has to be a [str]. *)
Fixpoint join (l : list value) : exn + string :=
  match l with
  | [] => inr EmptyString
  | VStr s :: l' => match join l' with
                    | inr t => inr (s ++ t)
                    | inl e => inl e
                    end
  | _ :: _ => inl TypeError
  end.

(** [int(f)] for a float: truncation toward zero. *)
Definition int_of_float (f : pyfloat) : exn + Z :=
  match f with
  | FNum m e => if 0 <=? e then inr (m * 2 ^ e) else inr (Z.quot m (2 ^ (- e)))
  | FInf _ => inl OverflowError
  | FNaN => inl ValueError
  end.

End Py.

(** ** What the program takes from its platform

    The token read from the environment at import time, and the library
    functions whose results the program only passes along. [None] from a
    decoder stands for the exception the library raises. *)
Class Platform : Type := {
  (** the value of REPLICATE_API_TOKEN in the environment, stripped;
      empty when the variable is not set *)
  TOKEN : string;
  (** [json.loads(raw)] *)
  json_loads : string -> option value;
  (** [json.dumps(v, ensure_ascii=False)] *)
  json_dumps : value -> string;
  (** [str(v)] for a value that is not a [str] *)
  py_repr : value -> string;
  (** [int(s)] for a [str] *)
  int_of_str : string -> option Z;
  (** the longest duration [time.sleep] converts without overflow, which
      is at least a second *)
  sleep_limit : Z;
  sleep_limit_second : 1 <= sleep_limit
}.

(** ** The network as the program sees it *)

(** What the program reads of an HTTP response: the status code and the
    result of [r.json()] ([None] when the body does not decode). *)
Record Response : Type := {
  status_code : Z;
  json : option value
}.

(** Each call of the HTTP client is answered by a response, or fails in the
    transport (connection refused, timeout). *)
Inductive reply : Type :=
| Got (r : Response)
| Lost.

(** A world is the sequence of replies the next calls will get. *)
Definition world : Type := list reply.

(** What a run leaves behind, in order: requests, sleeps, the graph nodes
    entered and the assignments to keys of the state. *)
Inductive event : Type :=
| EvGet (url : string) (headers : list (string * string))
| EvPost (url : string) (headers : list (string * string)) (body : value)
| EvSleep (secs : Z)
| EvNode (name : string)
| EvWrite (key : string).

(** ** Computations *)

(** A step that makes no request: it logs events and returns or raises. *)
Definition Local (A : Type) : Type := list event * (exn + A).

#[global] Instance Monad_Local : Monad Local := {
  ret := fun A (a : A) => ([], inr a);
  bind := fun A B (m : Local A) (f : A -> Local B) =>
    match m with
    | (t, inr a) => let (t', x) := f a in ((t ++ t')%list, x)
    | (t, inl e) => (t, inl e)
    end
}.

#[global] Instance Exception_Local : MonadExc exn Local := {
  raise := fun A (e : exn) => ([], inl e);
  catch := fun A (m : Local A) (h : exn -> Local A) =>
    match m with
    | (t, inl e) => let (t', x) := h e in ((t ++ t')%list, x)
    | _ => m
    end
}.

(** How a run over a finite world ends: with a value, with an exception, or
    waiting for a reply the world does not hold. *)
Inductive outcome (A : Type) : Type :=
| Ret (a : A)
| Raise (e : exn)
| Blocked.
Arguments Raise {A} e.
Arguments Blocked {A}.

Record result (A : Type) : Type := Result {
  outcome_of : outcome A;
  rest : world;
  log : list event
}.

(** A computation that talks to the network. *)
Definition M (A : Type) : Type := world -> result A.

(** [t] happened first, then the run [r]. *)
Definition after {A : Type} (t : list event) (r : result A) : result A :=
  Result (outcome_of r) (rest r) (t ++ log r)%list.

#[global] Instance Monad_M : Monad M := {
  ret := fun A (a : A) (w : world) => Result (Ret a) w [];
  bind := fun A B (m : M A) (f : A -> M B) (w : world) =>
    match m w with
    | Result (Ret a) w' t => after t (f a w')
    | Result (Raise e) w' t => Result (Raise e) w' t
    | Result Blocked w' t => Result Blocked w' t
    end
}.

#[global] Instance Exception_M : MonadExc exn M := {
  raise := fun A (e : exn) (w : world) => Result (Raise e) w [];
  catch := fun A (m : M A) (h : exn -> M A) (w : world) =>
    match m w with
    | Result (Raise e) w' t => after t (h e w')
    | r => r
    end
}.

(** A pure result that may be an exception, as a local step. *)
Definition pure {A : Type} (x : exn + A) : Local A := ([], x).

(** A local step inside a computation. *)
Definition local {A : Type} (m : Local A) : M A :=
  fun w => match m with
           | (t, inr a) => Result (Ret a) w t
           | (t, inl e) => Result (Raise e) w t
           end.

Definition emit (e : event) : M unit :=
  fun w => Result (Ret tt) w [e].

(** One call of the HTTP client. *)
Definition request (req : event) : M Response :=
  fun w => match w with
           | [] => Result Blocked [] [req]
           | Got r :: w' => Result (Ret r) w' [req]
           | Lost :: w' => Result (Raise TransportError) w' [req]
           end.

(** What one pass through the body of a [while True] decides. *)
Inductive pass (A : Type) : Type :=
| Leave (a : A)
| Again.
Arguments Again {A}.

(** [while True: r = <request>; <handle r>], where the handler makes no
    request of its own: every pass takes one reply from the world. *)
Fixpoint request_loop {A : Type} (req : event)
    (handle : Response -> Local (pass A)) (w : world) : result A :=
  match w with
  | [] => Result Blocked [] [req]
  | Lost :: w' => Result (Raise TransportError) w' [req]
  | Got r :: w' =>
      match handle r with
      | (t, inl e) => Result (Raise e) w' (req :: t)
      | (t, inr (Leave a)) => Result (Ret a) w' (req :: t)
      | (t, inr Again) => after (req :: t) (request_loop req handle w')
      end
  end.

(** ** Configuration and prompts *)

Definition dq : string := String "034"%char EmptyString.
Definition nl : string := String "010"%char EmptyString.

Definition MODEL_REF : string := "meta/meta-llama-3-8b-instruct".
Definition REPLICATE_API_BASE : string := "https://api.replicate.com/v1".

Definition SYSTEM_PROMPT : string :=
  "# Role: OCI Intelligent Documentation Assistant (OCI IDA)

## Profile
- Language: 中文（默认），必要时可中英双语
- Domain: Oracle Cloud Infrastructure (OCI)
- Description:
你是 OCI 的智能助手，负责解释概念、给出操作步骤，并在需要时提供 OCI CLI / SDK 示例。
你必须避免编造：当缺少关键信息或缺少可靠依据时，先最小追问或明确说明不确定。

## Rules
1. 不要虚构“官方文档链接/段落引用”。如果用户要求链接，你可以建议用户查阅 OCI 官方文档对应服务页面，但不要编造 URL。
2. 如果需要具体操作但信息不足：先在“Missing Info”小节列出最小必要字段（如 compartment_id/region/availability_domain/namespace/bucket_name 等），然后再给下一步建议。
3. 如果上文包含 [CommandTool] JSON（例如 generated_command/missing_fields），优先使用它：
   - generated_command 非空：把它原样放入 “OCI CLI Command” 小节
   - missing_fields 非空：把它合并到 “Missing Info” 小节
4. 输出必须结构化，按以下顺序（没有就写“无”或省略该小节）：
   - Problem Summary
   - Key Concepts (可选，概念题优先)
   - Preconditions
   - Steps
   - Validation
   - OCI CLI Command (如适用)
   - Missing Info (如适用)
   - Notes
5. 所有示例都用占位符（<tenancy_ocid>, <your_compartment_id>），不要输出任何真实密钥/Token。
".

Definition ROUTER_PROMPT : string :=
  "# Role: Router

任务：判断用户问题是否需要生成 OCI CLI command（use_command_tool）。

只输出**单行**JSON（不要 Markdown / 不要解释）：
{" ++ dq ++ "use_command_tool" ++ dq ++ ": true/false, " ++ dq ++ "missing_fields" ++ dq ++ ": [], " ++ dq ++ "reason" ++ dq ++ ": " ++ dq ++ dq ++ "}

判定规则：
- 需要命令（true）：用户明确要 CLI/command；或问题是资源操作（list/create/delete/update/describe/get），例如 bucket/instance/vcn/volume 等。
- 不需要命令（false）：纯概念解释、对比、原理、术语释义（what is / introduce / difference）。
- missing_fields：只填生成命令所需的最小字段，例如 compartment_id、region、availability_domain、namespace、bucket_name、instance_id。
".

Definition COMMAND_PROMPT : string :=
  "# Role: OCI CLI Command Generator (Tool)

任务：把用户意图转换为 OCI CLI command。

只输出**单行**JSON（不要 Markdown / 不要解释）：
{" ++ dq ++ "generated_command" ++ dq ++ ": " ++ dq ++ dq ++ ", " ++ dq ++ "missing_fields" ++ dq ++ ": [], " ++ dq ++ "notes" ++ dq ++ ": " ++ dq ++ dq ++ "}

规则：
- generated_command 必须以 'oci ' 开头；只输出一个最相关命令。
- 用户未提供关键字段：用 missing_fields 列出最小必要字段，并将 generated_command 置空。
- 可以使用占位符：
  <your_compartment_id>, <your_region>, <your_availability_domain>, <your_namespace>, <your_bucket_name>, <your_instance_id>
- notes 用一句话提示（例如“需要先提供 compartment_id 才能列出 bucket”）。
".

Definition LLAMA3_TEMPLATE : string :=
  "<|begin_of_text|>"
  ++ "<|start_header_id|>system<|end_header_id|>" ++ nl ++ nl ++ "{system_prompt}<|eot_id|>"
  ++ "<|start_header_id|>user<|end_header_id|>" ++ nl ++ nl ++ "{prompt}<|eot_id|>"
  ++ "<|start_header_id|>assistant<|end_header_id|>" ++ nl ++ nl.

(** [s.split(sep, 1)] unpacked into two names: [None] when [sep] does not
    occur, where the unpacking raises. *)
Fixpoint split_once (sep : ascii) (s : string) : option (string * string) :=
  match s with
  | EmptyString => None
  | String c s' =>
      if Ascii.eqb c sep then Some (EmptyString, s')
      else match split_once sep s' with
           | Some (a, b) => Some (String c a, b)
           | None => None
           end
  end.

(** ** The Replicate client *)

Section Client.
Context `{Platform}.

Definition _headers : list (string * string) :=
  [("Authorization", "Token " ++ TOKEN); ("Content-Type", "application/json")].

(** [int(v)] *)
Definition int (v : value) : exn + Z :=
  match v with
  | VInt z => inr z
  | VBool b => inr (if b then 1 else 0)
  | VFloat f => Py.int_of_float f
  | VStr s => match int_of_str s with
              | Some z => inr z
              | None => inl ValueError
              end
  | _ => inl TypeError
  end.

(** [str(v)], which is also how an f-string formats [v] *)
Definition str (v : value) : string :=
  match v with
  | VStr s => s
  | _ => py_repr v
  end.

(** [time.sleep(secs)] *)
Definition time_sleep (secs : Z) : Local unit :=
  if secs <? 0 then raise ValueError
  else if sleep_limit <? secs then raise OverflowError
  else ([EvSleep secs], inr tt).

(** [r.raise_for_status()]: httpx raises unless the code is a 2xx. *)
Definition raise_for_status (r : Response) : exn + unit :=
  if (200 <=? status_code r) && (status_code r <=? 299) then inr tt
  else inl (HTTPStatusError (status_code r)).

(** [r.json()] *)
Definition response_json (r : Response) : exn + value :=
  match json r with
  | Some v => inr v
  | None => inl JSONDecodeError
  end.

(** The [try] of the 429 branch, with its [except Exception]. *)
Definition retry_after_of (r : Response) : Z :=
  match (j <- response_json r ;;
         x <- Py.get j "retry_after" (VInt 5) ;;
         int x) with
  | inr n => n
  | inl _ => 5
  end.

(** The body of the first loop, after its [post]. *)
Definition create_prediction (r : Response) : Local (pass value) :=
  if status_code r =? 429 then
    let retry_after := retry_after_of r in
    time_sleep (retry_after + 1) ;;
    ret Again
  else
    pure (raise_for_status r) ;;
    pid <- pure (j <- response_json r ;; Py.getitem j "id") ;;
    ret (Leave pid).

(** The body of the second loop, after its [get]. *)
Definition poll_prediction (r : Response) : Local (pass string) :=
  j <- pure (response_json r) ;;
  status <- pure (Py.getitem j "status") ;;
  if Py.eq_str status "succeeded" then
    out <- pure (Py.get j "output" (VStr EmptyString)) ;;
    match out with
    | VList items => joined <- pure (Py.join items) ;; ret (Leave joined)
    | _ => ret (Leave (str out))
    end
  else if Py.eq_str status "failed" || Py.eq_str status "canceled" then
    raise (RuntimeError ("Replicate prediction " ++ str status ++ ": " ++ str j))
  else
    time_sleep 1 ;;
    ret Again.

(** The JSON body of the [post]. *)
Definition prediction_request (vid : value) (system_prompt prompt : string)
    (max_tokens : Z) (temperature : pyfloat) : value :=
  VDict [("version", vid);
         ("input", VDict [("system_prompt", VStr system_prompt);
                          ("prompt", VStr (prompt ++ nl));
                          ("prompt_template", VStr LLAMA3_TEMPLATE);
                          ("max_new_tokens", VInt max_tokens);
                          ("temperature", VFloat temperature);
                          ("stop_sequences", VStr "<|end_of_text|>,<|eot_id|>")])].

Definition run_replicate_model (system_prompt prompt : string)
    (max_tokens : Z) (temperature : pyfloat) : M string :=
  match TOKEN with
  | EmptyString =>
      raise (RuntimeError
        "REPLICATE_API_TOKEN is empty. Please set it in .env or environment variables.")
  | _ =>
      match split_once "/" MODEL_REF with
      | None => raise ValueError
      | Some (owner, name) =>
          (* 1) get latest version id *)
          r <- request (EvGet (REPLICATE_API_BASE ++ "/models/" ++ owner ++ "/" ++ name)
                              _headers) ;;
          local (pure (raise_for_status r)) ;;
          vid <- local (pure (j <- response_json r ;;
                              lv <- Py.getitem j "latest_version" ;;
                              Py.getitem lv "id")) ;;
          (* 2) create prediction *)
          pid <- request_loop
                   (EvPost (REPLICATE_API_BASE ++ "/predictions") _headers
                      (prediction_request vid system_prompt prompt max_tokens temperature))
                   create_prediction ;;
          (* 3) poll prediction *)
          request_loop
            (EvGet (REPLICATE_API_BASE ++ "/predictions/" ++ str pid) _headers)
            poll_prediction
      end
  end.

(** The three stages of a call, named. *)
Definition lookup_version : M value :=
  r <- request (EvGet (REPLICATE_API_BASE ++ "/models/" ++ "meta" ++ "/"
                         ++ "meta-llama-3-8b-instruct") _headers) ;;
  local (pure (raise_for_status r)) ;;
  local (pure (j <- response_json r ;;
               lv <- Py.getitem j "latest_version" ;;
               Py.getitem lv "id")).

Definition submit (vid : value) (system_prompt prompt : string)
    (max_tokens : Z) (temperature : pyfloat) : M value :=
  request_loop
    (EvPost (REPLICATE_API_BASE ++ "/predictions") _headers
       (prediction_request vid system_prompt prompt max_tokens temperature))
    create_prediction.

Definition poll (pid : value) : M string :=
  request_loop
    (EvGet (REPLICATE_API_BASE ++ "/predictions/" ++ str pid) _headers)
    poll_prediction.

End Client.

(** ** The request state *)

(** [class State(TypedDict, total=False)]: every key may be missing. *)
Module State.
Record t : Type := {
  user_input : option string;
  route : option value;
  command : option value;
  reply : option string
}.

(** [{"user_input": q}] *)
Definition initial (q : string) : t :=
  {| user_input := Some q; route := None; command := None; reply := None |}.

Definition set_route (v : value) (s : t) : t :=
  {| user_input := user_input s; route := Some v;
     command := command s; reply := reply s |}.

Definition set_command (v : value) (s : t) : t :=
  {| user_input := user_input s; route := route s;
     command := Some v; reply := reply s |}.

Definition set_reply (r : string) (s : t) : t :=
  {| user_input := user_input s; route := route s;
     command := command s; reply := Some r |}.
End State.

(** The floats [0.2] and [0.3] as the doubles Python reads them to. *)
Definition float_0_2 : pyfloat := FNum 7205759403792794 (-55).
Definition float_0_3 : pyfloat := FNum 5404319552844595 (-54).

(** ** The graph nodes *)

Section Nodes.
Context `{Platform}.

(** [state["user_input"]] *)
Definition get_user_input (state : State.t) : M string :=
  match State.user_input state with
  | Some q => ret q
  | None => raise (KeyError "user_input")
  end.

(** The record [router] stores when its model output does not decode. *)
Definition router_fallback : value :=
  VDict [("use_command_tool", VBool false);
         ("missing_fields", VList []);
         ("reason", VStr "Router output not valid JSON")].

(** The record [command] stores when its model output does not decode. *)
Definition command_fallback : value :=
  VDict [("generated_command", VStr EmptyString);
         ("missing_fields", VList []);
         ("notes", VStr "Command output not valid JSON")].

Definition router (state : State.t) : M State.t :=
  q <- get_user_input state ;;
  raw <- run_replicate_model ROUTER_PROMPT q 120 float_0_2 ;;
  match json_loads raw with
  | Some v =>
      emit (EvWrite "route") ;;
      ret (State.set_route v state)
  | None =>
      emit (EvWrite "route") ;;
      ret (State.set_route router_fallback state)
  end.

Definition command (state : State.t) : M State.t :=
  q <- get_user_input state ;;
  raw <- run_replicate_model COMMAND_PROMPT q 200 float_0_2 ;;
  match json_loads raw with
  | Some v =>
      emit (EvWrite "command") ;;
      ret (State.set_command v state)
  | None =>
      emit (EvWrite "command") ;;
      ret (State.set_command command_fallback state)
  end.

(** The text [answer] appends to the user prompt. *)
Definition tool_info (state : State.t) : string :=
  match State.command state with
  | Some c => nl ++ "[CommandTool]" ++ nl ++ json_dumps c ++ nl
  | None => EmptyString
  end.

Definition answer (state : State.t) : M State.t :=
  let tool_info := tool_info state in
  q <- get_user_input state ;;
  r <- run_replicate_model SYSTEM_PROMPT (q ++ tool_info) 300 float_0_3 ;;
  emit (EvWrite "reply") ;;
  ret (State.set_reply r state).

Definition route_decision (state : State.t) : exn + string :=
  match State.route state with
  | None => inl (KeyError "route")
  | Some r =>
      flag <- Py.get r "use_command_tool" VNone ;;
      ret (if Py.truthy flag then "command" else "answer")
  end.

End Nodes.

(** ** The graph, as LangGraph runs it

    The nodes of this graph run one after the other; each node gets the
    state the previous one returned. *)

Definition END : string := "__end__".

Fixpoint assoc {A : Type} (k : string) (l : list (string * A)) : option A :=
  match l with
  | [] => None
  | (k', a) :: l' => if String.eqb k k' then Some a else assoc k l'
  end.

Record StateGraph : Type := {
  nodes : list (string * (State.t -> M State.t));
  entry_point : option string;
  branches : list (string * ((State.t -> exn + string) * list (string * string)));
  edges : list (string * string)
}.

Definition new_graph : StateGraph :=
  {| nodes := []; entry_point := None; branches := []; edges := [] |}.

Definition add_node (name : string) (action : State.t -> M State.t)
    (g : StateGraph) : StateGraph :=
  {| nodes := (nodes g ++ [(name, action)])%list; entry_point := entry_point g;
     branches := branches g; edges := edges g |}.

Definition set_entry_point (name : string) (g : StateGraph) : StateGraph :=
  {| nodes := nodes g; entry_point := Some name;
     branches := branches g; edges := edges g |}.

Definition add_conditional_edges (source : string) (path : State.t -> exn + string)
    (path_map : list (string * string)) (g : StateGraph) : StateGraph :=
  {| nodes := nodes g; entry_point := entry_point g;
     branches := (branches g ++ [(source, (path, path_map))])%list; edges := edges g |}.

Definition add_edge (start_key end_key : string) (g : StateGraph) : StateGraph :=
  {| nodes := nodes g; entry_point := entry_point g;
     branches := branches g; edges := (edges g ++ [(start_key, end_key)])%list |}.

(** Where the run goes after [node] has returned [state]. *)
Definition next_node (g : StateGraph) (node : string) (state : State.t) : exn + string :=
  match assoc node (branches g) with
  | Some (path, path_map) =>
      key <- path state ;;
      match assoc key path_map with
      | Some target => ret target
      | None => inl (KeyError key)
      end
  | None =>
      match assoc node (edges g) with
      | Some target => ret target
      | None => ret END
      end
  end.

(** The run from [node] on, under a limit on the number of steps. *)
Fixpoint run_from (g : StateGraph) (limit : nat) (node : string) (state : State.t)
    : M State.t :=
  if String.eqb node END then ret state
  else
    match limit with
    | O => raise GraphRecursionError
    | S limit' =>
        match assoc node (nodes g) with
        | None => raise (KeyError node)
        | Some action =>
            emit (EvNode node) ;;
            state' <- action state ;;
            target <- local (pure (next_node g node state')) ;;
            run_from g limit' target state'
        end
    end.

(** LangGraph's default recursion limit. *)
Definition recursion_limit : nat := 25.

(** [graph.compile()], as the function [invoke] computes. *)
Definition compile (g : StateGraph) (state : State.t) : M State.t :=
  match entry_point g with
  | Some node => run_from g recursion_limit node state
  | None => raise ValueError
  end.

Section Pipeline.
Context `{Platform}.

Definition graph : StateGraph :=
  add_edge "answer" END
    (add_edge "command" "answer"
       (add_conditional_edges "router" route_decision
          [("command", "command"); ("answer", "answer")]
          (set_entry_point "router"
             (add_node "answer" answer
                (add_node "command" command
                   (add_node "router" router new_graph)))))).

Definition CHAT_GRAPH : State.t -> M State.t := compile graph.

(** The body of the handler after the graph has run: the fields of the
    JSON reply, from the final state. *)
Definition chat_reply (out : State.t) : exn + value :=
  let cmd := match State.command out with
             | Some c => c
             | None => VDict []
             end in
  generated <- Py.get cmd "generated_command" VNone ;;
  tool_used <- (if Py.truthy generated then ret true
                else missing <- Py.get cmd "missing_fields" VNone ;;
                     ret (Py.truthy missing)) ;;
  generated_command <- Py.get cmd "generated_command" (VStr EmptyString) ;;
  missing_fields <- Py.get cmd "missing_fields" (VList []) ;;
  ret (VDict [("reply", VStr (match State.reply out with
                              | Some r => r
                              | None => EmptyString
                              end));
              ("tool_used", VBool tool_used);
              ("generated_command", generated_command);
              ("missing_fields", missing_fields)]).

(** [POST /api/chat] with the prompt [q]. *)
Definition chat (q : string) : M value :=
  out <- CHAT_GRAPH (State.initial q) ;;
  local (pure (chat_reply out)).

End Pipeline.

(** ** Reading a log *)

Definition nodes_of (t : list event) : list string :=
  flat_map (fun e => match e with EvNode n => [n] | _ => [] end) t.

Definition writes_of (t : list event) : list string :=
  flat_map (fun e => match e with EvWrite k => [k] | _ => [] end) t.

Definition posts_of (t : list event) : list value :=
  flat_map (fun e => match e with EvPost _ _ b => [b] | _ => [] end) t.

Definition sleeps_of (t : list event) : list Z :=
  flat_map (fun e => match e with EvSleep s => [s] | _ => [] end) t.

(** ** Vocabulary of the statements *)

Definition sleep_event (e : event) : Prop :=
  match e with
  | EvSleep _ => True
  | _ => False
  end.

(** The events of one model call: gets, sleeps, and posts of the one
    request body made from the arguments of the call. *)
Definition call_event (system_prompt prompt : string) (max_tokens : Z)
    (temperature : pyfloat) (e : event) : Prop :=
  match e with
  | EvPost _ _ b =>
      exists vid, b = prediction_request vid system_prompt prompt max_tokens temperature
  | EvGet _ _ | EvSleep _ => True
  | EvNode _ | EvWrite _ => False
  end.

Section Waits.
Context `{Platform}.


End Waits.

(** The poll answered with a JSON object whose status field is [status]. *)
Definition reports (r : Response) (status : value) : Prop :=
  exists d, json r = Some (VDict d) /\ Py.lookup "status" d = Some status.

(** A status that is none of the three the loop acts on. *)
Definition other_status (status : value) : Prop :=
  Py.eq_str status "succeeded" = false /\
  Py.eq_str status "failed" = false /\
  Py.eq_str status "canceled" = false.

Definition pending (r : Response) : Prop :=
  exists status, reports r status /\ other_status status.

(** The output field of a poll, when the poll is an object that has one. *)
Definition output_of (r : Response) : option value :=
  match json r with
  | Some (VDict d) => Py.lookup "output" d
  | _ => None
  end.

(** A value Python's truth test accepts: not null, false, zero or empty. *)
Definition non_empty (v : value) : Prop :=
  match v with
  | VNone => False
  | VBool b => b = true
  | VInt z => z <> 0
  | VFloat (FNum m _) => m <> 0
  | VFloat _ => True
  | VStr s => s <> EmptyString
  | VList l => l <> []
  | VDict d => d <> []
  end.

(** A field of the command record of a state: [None] when the state has no
    command record, when the record is not an object, or when the object
    lacks the field. *)
Definition command_field (out : State.t) (k : string) : option value :=
  match State.command out with
  | Some (VDict d) => Py.lookup k d
  | _ => None
  end.

Definition filled (v : option value) : Prop :=
  match v with
  | Some x => non_empty x
  | None => False
  end.

(** The truth test on a field that may be absent. *)
Definition truth_of (v : option value) : bool :=
  match v with
  | Some x => Py.truthy x
  | None => false
  end.

(** ** A platform to run the pipeline on

    A decoder for the JSON texts made of null, true, false, integers,
    strings without escapes, arrays and objects (every other text is
    refused), with the printers to match. *)

Module Demo.

Definition is_space (c : ascii) : bool :=
  Ascii.eqb c " " || Ascii.eqb c "009" || Ascii.eqb c "010" || Ascii.eqb c "013".

Fixpoint skip_ws (s : string) : string :=
  match s with
  | String c s' => if is_space c then skip_ws s' else s
  | EmptyString => s
  end.

Definition digit_of (c : ascii) : option Z :=
  let n := Z.of_N (N_of_ascii c) in
  if (48 <=? n) && (n <=? 57) then Some (n - 48) else None.

Fixpoint digits (acc : Z) (s : string) : Z * string :=
  match s with
  | String c s' =>
      match digit_of c with
      | Some d => digits (10 * acc + d) s'
      | None => (acc, s)
      end
  | EmptyString => (acc, s)
  end.

(** A JSON integer: [0], or a digit from 1 to 9 and then digits; a
    fraction or an exponent after it puts the text outside the fragment. *)
Definition natural (s : string) : option (Z * string) :=
  match s with
  | String c s' =>
      match digit_of c with
      | Some d =>
          let (n, rest) := if d =? 0 then (0, s') else digits d s' in
          match rest with
          | String c' _ =>
              if Ascii.eqb c' "." || Ascii.eqb c' "e" || Ascii.eqb c' "E"
              then None else Some (n, rest)
          | EmptyString => Some (n, rest)
          end
      | None => None
      end
  | EmptyString => None
  end.

(** The characters of a string up to the closing quote. *)
Fixpoint characters (s : string) : option (string * string) :=
  match s with
  | EmptyString => None
  | String c s' =>
      if Ascii.eqb c "034" then Some (EmptyString, s')
      else if Ascii.eqb c "092" || (N_of_ascii c <? 32)%N then None
      else match characters s' with
           | Some (body, rest) => Some (String c body, rest)
           | None => None
           end
  end.

(** [s] starts with [word]: the text after it. *)
Fixpoint literal (word s : string) : option string :=
  match word, s with
  | EmptyString, _ => Some s
  | String a word', String b s' => if Ascii.eqb a b then literal word' s' else None
  | String _ _, EmptyString => None
  end.

(** [d[k] = v] on the items of a dict: a key keeps its first position. *)
Fixpoint dict_set (k : string) (v : value) (d : list (string * value))
    : list (string * value) :=
  match d with
  | [] => [(k, v)]
  | (k', v') :: d' =>
      if String.eqb k k' then (k, v) :: d' else (k', v') :: dict_set k v d'
  end.

Fixpoint element (fuel : nat) (s : string) {struct fuel} : option (value * string) :=
  match fuel with
  | O => None
  | S fuel' =>
      match skip_ws s with
      | EmptyString => None
      | String c rest =>
          if Ascii.eqb c "034" then
            match characters rest with
            | Some (body, rest') => Some (VStr body, rest')
            | None => None
            end
          else if Ascii.eqb c "[" then
            match skip_ws rest with
            | String c' rest' =>
                if Ascii.eqb c' "]" then Some (VList [], rest')
                else elements fuel' rest []
            | EmptyString => None
            end
          else if Ascii.eqb c "{" then
            match skip_ws rest with
            | String c' rest' =>
                if Ascii.eqb c' "}" then Some (VDict [], rest')
                else members fuel' rest []
            | EmptyString => None
            end
          else if Ascii.eqb c "n" then
            option_map (pair VNone) (literal "ull" rest)
          else if Ascii.eqb c "t" then
            option_map (pair (VBool true)) (literal "rue" rest)
          else if Ascii.eqb c "f" then
            option_map (pair (VBool false)) (literal "alse" rest)
          else if Ascii.eqb c "-" then
            match natural rest with
            | Some (n, rest') => Some (VInt (- n), rest')
            | None => None
            end
          else
            match natural (String c rest) with
            | Some (n, rest') => Some (VInt n, rest')
            | None => None
            end
      end
  end
with elements (fuel : nat) (s : string) (acc : list value) {struct fuel}
    : option (value * string) :=
  match fuel with
  | O => None
  | S fuel' =>
      match element fuel' s with
      | Some (v, rest) =>
          match skip_ws rest with
          | String c rest' =>
              if Ascii.eqb c "," then elements fuel' rest' (acc ++ [v])%list
              else if Ascii.eqb c "]" then Some (VList (acc ++ [v])%list, rest')
              else None
          | EmptyString => None
          end
      | None => None
      end
  end
with members (fuel : nat) (s : string) (acc : list (string * value)) {struct fuel}
    : option (value * string) :=
  match fuel with
  | O => None
  | S fuel' =>
      match skip_ws s with
      | String q s1 =>
          if Ascii.eqb q "034" then
            match characters s1 with
            | Some (k, s2) =>
                match skip_ws s2 with
                | String c s3 =>
                    if Ascii.eqb c ":" then
                      match element fuel' s3 with
                      | Some (v, rest) =>
                          match skip_ws rest with
                          | String c' rest' =>
                              if Ascii.eqb c' "," then members fuel' rest' (dict_set k v acc)
                              else if Ascii.eqb c' "}" then
                                Some (VDict (dict_set k v acc), rest')
                              else None
                          | EmptyString => None
                          end
                      | None => None
                      end
                    else None
                | EmptyString => None
                end
            | None => None
            end
          else None
      | EmptyString => None
      end
  end.

Definition loads (s : string) : option value :=
  match element (2 * String.length s + 2) s with
  | Some (v, rest) =>
      match skip_ws rest with
      | EmptyString => Some v
      | String _ _ => None
      end
  | None => None
  end.

Definition string_of_Z (z : Z) : string := NilZero.string_of_int (Z.to_int z).

Definition show_float (f : pyfloat) : string :=
  match f with
  | FNum m e => string_of_Z m ++ "*2**" ++ string_of_Z e
  | FInf false => "Infinity"
  | FInf true => "-Infinity"
  | FNaN => "NaN"
  end.

(** The printer, with [quote] around strings and the given words for the
    three constants. *)
Fixpoint show (quote none true_ false_ : string) (v : value) : string :=
  match v with
  | VNone => none
  | VBool b => if b then true_ else false_
  | VInt z => string_of_Z z
  | VFloat f => show_float f
  | VStr s => quote ++ s ++ quote
  | VList l =>
      "[" ++ String.concat ", " (map (show quote none true_ false_) l) ++ "]"
  | VDict d =>
      "{" ++ String.concat ", "
               (map (fun kv => quote ++ fst kv ++ quote ++ ": "
                               ++ show quote none true_ false_ (snd kv)) d)
          ++ "}"
  end.

Definition dumps : value -> string := show dq "null" "true" "false".

Definition repr : value -> string := show "'" "None" "True" "False".

(** [int(s)] for an optional sign and decimal digits between spaces. *)
Definition to_int (s : string) : option Z :=
  let s := skip_ws s in
  let (negative, body) :=
    match s with
    | String c s' =>
        if Ascii.eqb c "-" then (true, s')
        else if Ascii.eqb c "+" then (false, s')
        else (false, s)
    | EmptyString => (false, s)
    end in
  match body with
  | String c _ =>
      match digit_of c with
      | Some _ =>
          let (n, rest) := digits 0 body in
          match skip_ws rest with
          | EmptyString => Some (if negative then - n else n)
          | String _ _ => None
          end
      | None => None
      end
  | EmptyString => None
  end.

Definition platform : Platform := {|
  TOKEN := "r8_demo_token";
  json_loads := loads;
  json_dumps := dumps;
  py_repr := repr;
  int_of_str := to_int;
  sleep_limit := 9223372036;
  sleep_limit_second := ltac:(discriminate)
|}.

(** A reply with a status code and a JSON body. *)
Definition http (code : Z) (body : value) : reply :=
  Got {| status_code := code; json := Some body |}.

(** The replies to one model call that goes through at once and whose
    output arrives as the given fragments. *)
Definition model_says (fragments : list string) : world :=
  [ http 200 (VDict [("latest_version", VDict [("id", VStr "v1")])]);
    http 201 (VDict [("id", VStr "p1"); ("status", VStr "starting")]);
    http 200 (VDict [("id", VStr "p1"); ("status", VStr "succeeded");
                     ("output", VList (map VStr fragments))]) ].

(** A JSON object text from its members, each a quoted key and the text of
    its value. *)
Definition quoted (s : string) : string := dq ++ s ++ dq.

Definition object_text (members : list (string * string)) : string :=
  "{" ++ String.concat ", " (map (fun kv => quoted (fst kv) ++ ": " ++ snd kv) members)
      ++ "}".

(** What the router's model says when it wants the command tool, and when
    it does not. *)
Definition router_yes : string :=
  object_text [("use_command_tool", "true"); ("missing_fields", "[]");
               ("reason", quoted "resource operation")].

Definition router_no : string :=
  object_text [("use_command_tool", "false"); ("missing_fields", "[]");
               ("reason", quoted "concept question")].

(** What the command's model says when it has a command, and when a field
    is missing. *)
Definition command_found : string :=
  object_text [("generated_command", quoted "oci os bucket list --compartment-id X");
               ("missing_fields", "[]"); ("notes", dq ++ dq)].

Definition command_missing : string :=
  object_text [("generated_command", dq ++ dq);
               ("missing_fields", "[" ++ quoted "compartment_id" ++ "]");
               ("notes", quoted "compartment_id is needed to list buckets")].

(** A 429 reply with the given body. *)
Definition too_many (body : option value) : Response :=
  {| status_code := 429; json := body |}.

(** A poll reply with the given status. *)
Definition job (status : string) : Response :=
  {| status_code := 200;
     json := Some (VDict [("id", VStr "p1"); ("status", VStr status)]) |}.

(** Scenario A: a concept question. *)
Definition question_A : string := "What is a compartment?".
Definition world_A : world :=
  (model_says [router_no]
   ++ model_says ["A compartment "; "groups resources."])%list.

(** Scenario B: a resource operation with every field given. *)
Definition question_B : string := "List all buckets in compartment X".
Definition world_B : world :=
  (model_says [router_yes]
   ++ model_says [command_found]
   ++ model_says ["Run the command below."])%list.

(** Scenario C: a resource operation with the compartment unknown. *)
Definition question_C : string := "List all my buckets".
Definition world_C : world :=
  (model_says [router_yes]
   ++ model_says [command_missing]
   ++ model_says ["Which compartment?"])%list.

(** A model that chats instead of emitting JSON. *)
Definition chatty : string := "Sure! Here is the JSON you asked for.".


Definition world_command_chatty : world :=
  (model_says [chatty] ++ model_says ["Please tell me more."])%list.

(** A router model that emits a bare array. *)
Definition world_router_array : world := model_says ["["; "]"].

(** A router model that quotes its flag. *)
Definition router_quoted_flag : string :=
  object_text [("use_command_tool", quoted "false")].

Definition world_quoted_flag : world :=
  (model_says [router_quoted_flag]
   ++ model_says [command_missing]
   ++ model_says ["Which compartment?"])%list.

(** The state the router leaves on [world_quoted_flag]. *)
Definition state_quoted_flag : State.t :=
  State.set_route (VDict [("use_command_tool", VStr "false")])
    (State.initial question_A).

(** Scenario D: the submission is rate limited twice, once with a wait of
    3 and once with no body, and then accepted. *)
Definition limited_D : list Response :=
  [too_many (Some (VDict [("detail", VStr "throttled"); ("retry_after", VInt 3)]));
   too_many None].

Definition accepted_D : world :=
  [http 201 (VDict [("id", VStr "p1"); ("status", VStr "starting")])].

(** A job that is polled three times before it succeeds, the third time
    with a status the client does not know. *)
Definition waiting_job : list Response :=
  [job "starting"; job "processing"; job "paused"].

Definition finished_job : Response :=
  {| status_code := 200;
     json := Some (VDict [("id", VStr "p1"); ("status", VStr "succeeded");
                          ("output", VList (map VStr ["Hello"; ", "; "world"]))]) |}.

End Demo.

(** ** The script of the page

    [escapeHtml] of the page [home] serves: every match of the character
    class is replaced by its entity, every other character is kept. *)

Definition entity (c : ascii) : option string :=
  if Ascii.eqb c "&" then Some "&amp;"
  else if Ascii.eqb c "<" then Some "&lt;"
  else if Ascii.eqb c ">" then Some "&gt;"
  else if Ascii.eqb c "034" then Some "&quot;"
  else if Ascii.eqb c "'" then Some "&#39;"
  else None.

Fixpoint escapeHtml (s : string) : string :=
  match s with
  | EmptyString => EmptyString
  | String c s' =>
      match entity c with
      | Some e => e ++ escapeHtml s'
      | None => String c (escapeHtml s')
      end
  end.

(** The characters that open or close markup and attribute values. *)
Definition markup : list ascii := ["<"; ">"; "034"; "'"]%char.

(** ** More vocabulary of the statements *)

(** The address of the version lookup. *)
Definition models_url : string :=
  REPLICATE_API_BASE ++ "/models/meta/meta-llama-3-8b-instruct".

Definition predictions_url : string := REPLICATE_API_BASE ++ "/predictions".

Definition is_lookup (e : event) : bool :=
  match e with
  | EvGet url _ => String.eqb url models_url
  | _ => false
  end.

Definition lookups_of (t : list event) : list event := filter is_lookup t.

(** The test of [raise_for_status]. *)
Definition is_success (code : Z) : bool := (200 <=? code) && (code <=? 299).

(** Two replies the polling loop cannot tell apart: both lost, or both
    answered with the same decoded body. *)
Definition same_body (x y : reply) : Prop :=
  match x, y with
  | Got r, Got r' => json r = json r'
  | Lost, Lost => True
  | _, _ => False
  end.

Section Requests.
Context `{Platform}.

(** A request that goes to the Replicate API with the headers of
    [_headers]. *)
Definition addressed (e : event) : Prop :=
  match e with
  | EvGet url headers | EvPost url headers _ =>
      String.prefix REPLICATE_API_BASE url = true /\ headers = _headers
  | _ => True
  end.

(** The request of the submission and the request of a poll. *)
Definition post_of (vid : value) (system_prompt prompt : string)
    (max_tokens : Z) (temperature : pyfloat) : event :=
  EvPost predictions_url _headers
    (prediction_request vid system_prompt prompt max_tokens temperature).

Definition get_of (pid : value) : event :=
  EvGet (REPLICATE_API_BASE ++ "/predictions/" ++ str pid) _headers.

(** The log of a model call that returned. *)
Definition returned_call (c : list event) : Prop :=
  exists system_prompt prompt max_tokens temperature w w' text,
    run_replicate_model system_prompt prompt max_tokens temperature w
    = Result (Ret text) w' c.

End Requests.

(** The pairs of node list and assignment list a run can leave. *)
Definition run_shapes : list (list string * list string) :=
  [ (["router"], []);
    (["router"], ["route"]);
    (["router"; "answer"], ["route"]);
    (["router"; "answer"], ["route"; "reply"]);
    (["router"; "command"], ["route"]);
    (["router"; "command"; "answer"], ["route"; "command"]);
    (["router"; "command"; "answer"], ["route"; "command"; "reply"]) ].

(** ** More replies and a platform without a token *)

Module Fixtures.

Definition no_token : Platform := {|
  TOKEN := EmptyString;
  json_loads := Demo.loads;
  json_dumps := Demo.dumps;
  py_repr := Demo.repr;
  int_of_str := Demo.to_int;
  sleep_limit := 9223372036;
  sleep_limit_second := ltac:(discriminate)
|}.

(** The reply to a version lookup that finds version [v1]. *)
Definition version_found : Response :=
  {| status_code := 200;
     json := Some (VDict [("latest_version", VDict [("id", VStr "v1")])]) |}.

(** An accepted submission. *)
Definition accepted : Response :=
  {| status_code := 201;
     json := Some (VDict [("id", VStr "p1"); ("status", VStr "starting")]) |}.

(** A server error with a JSON body. *)
Definition server_error : Response :=
  {| status_code := 500; json := Some (VDict [("detail", VStr "Internal error")]) |}.

(** The body of an error, under a 404. *)
Definition not_found : Response :=
  {| status_code := 404; json := Some (VDict [("detail", VStr "Not found")]) |}.

(** A finished job under a 500. *)
Definition finished_under_500 : Response :=
  {| status_code := 500; json := json Demo.finished_job |}.

(** A command model that emits a bare array. *)
Definition world_array_command : world :=
  (Demo.model_says [Demo.router_yes]
   ++ Demo.model_says ["["; "]"]
   ++ Demo.model_says ["Run the command below."])%list.

(** A text with each of the five characters [escapeHtml] replaces. *)
Definition tagged : string :=
  "<b title=" ++ dq ++ "it's" ++ dq ++ ">Tom & Jerry</b>".

End Fixtures.

(** * Properties *)

(** ** Laws of the computations *)

Lemma bind_run {A B : Type} (m : M A) (f : A -> M B) (w : world) :
  bind m f w =
  match m w with
  | Result (Ret a) w' t => after t (f a w')
  | Result (Raise e) w' t => Result (Raise e) w' t
  | Result Blocked w' t => Result Blocked w' t
  end.
Proof. reflexivity. Qed.

Lemma after_nil {A : Type} (r : result A) : after [] r = r.
Proof. destruct r; reflexivity. Qed.

Lemma after_after {A : Type} (t u : list event) (r : result A) :
  after t (after u r) = after (t ++ u)%list r.
Proof. unfold after; simpl. now rewrite app_assoc. Qed.

Lemma log_after {A : Type} (t : list event) (r : result A) :
  log (after t r) = (t ++ log r)%list.
Proof. reflexivity. Qed.

Lemma nodes_of_app (t u : list event) :
  nodes_of (t ++ u) = (nodes_of t ++ nodes_of u)%list.
Proof. apply flat_map_app. Qed.

Lemma writes_of_app (t u : list event) :
  writes_of (t ++ u) = (writes_of t ++ writes_of u)%list.
Proof. apply flat_map_app. Qed.

Lemma posts_of_app (t u : list event) :
  posts_of (t ++ u) = (posts_of t ++ posts_of u)%list.
Proof. apply flat_map_app. Qed.

Lemma bind_bind {A B C : Type} (m : M A) (f : A -> M B) (g : B -> M C) (w : world) :
  bind (bind m f) g w = bind m (fun a => bind (f a) g) w.
Proof.
  rewrite !bind_run. destruct (m w) as [[a| e |] w1 t1]; try reflexivity.
  rewrite bind_run. destruct (f a w1) as [[b| e |] w2 t2]; try reflexivity.
  simpl. now rewrite after_after.
Qed.

(** A bind that returns has run both of its parts. *)
Lemma bind_ret_inv {A B : Type} (m : M A) (f : A -> M B) (w w' : world)
    (b : B) (t : list event) :
  bind m f w = Result (Ret b) w' t ->
  exists a w1 t1 t2,
    m w = Result (Ret a) w1 t1 /\ f a w1 = Result (Ret b) w' t2 /\ t = (t1 ++ t2)%list.
Proof.
  rewrite bind_run. destruct (m w) as [[a| e |] w1 t1]; try discriminate.
  destruct (f a w1) as [o w2 t2] eqn:Ef. unfold after; simpl.
  intros [= -> -> <-]. now exists a, w1, t1, t2.
Qed.

(** ** What the client leaves in the log *)

Section ClientFacts.
Context `{Platform}.

Lemma time_sleep_events (secs : Z) : Forall sleep_event (fst (time_sleep secs)).
Proof.
  unfold time_sleep.
  destruct (secs <? 0); [constructor|].
  destruct (sleep_limit <? secs); repeat constructor.
Qed.

Lemma time_sleep_ok (secs : Z) :
  0 <= secs <= sleep_limit -> time_sleep secs = ([EvSleep secs], inr tt).
Proof.
  intros [H0 H1]. unfold time_sleep.
  destruct (Z.ltb_spec secs 0); [lia|].
  destruct (Z.ltb_spec sleep_limit secs); [lia|reflexivity].
Qed.

Lemma create_prediction_events (r : Response) :
  Forall sleep_event (fst (create_prediction r)).
Proof.
  unfold create_prediction.
  destruct (status_code r =? 429).
  - pose proof (time_sleep_events (retry_after_of r + 1)) as Hs.
    simpl. destruct (time_sleep (retry_after_of r + 1)) as [t [e|[]]]; simpl in *.
    + exact Hs.
    + now rewrite app_nil_r.
  - simpl. destruct (raise_for_status r) as [e|[]]; simpl; [constructor|].
    destruct (response_json r) as [e|j]; simpl; [constructor|].
    destruct (Py.getitem j "id"); simpl; constructor.
Qed.

Lemma poll_prediction_events (r : Response) :
  Forall sleep_event (fst (poll_prediction r)).
Proof.
  unfold poll_prediction. simpl.
  destruct (response_json r) as [e|j]; simpl; [constructor|].
  destruct (Py.getitem j "status") as [e|status]; simpl; [constructor|].
  destruct (Py.eq_str status "succeeded").
  - destruct (Py.get j "output" (VStr EmptyString)) as [e|out]; simpl; [constructor|].
    destruct out; simpl; try constructor.
    destruct (Py.join items); simpl; constructor.
  - destruct (Py.eq_str status "failed" || Py.eq_str status "canceled"); simpl;
      [constructor|].
    pose proof (time_sleep_events 1) as Hs.
    destruct (time_sleep 1) as [t [e|[]]]; simpl in *; [exact Hs|].
    now rewrite app_nil_r.
Qed.

(** Every event of a loop is its request or an event of its handler. *)
Lemma request_loop_log {A : Type} (Q : event -> Prop) (req : event)
    (handle : Response -> Local (pass A)) :
  Q req ->
  (forall r, Forall Q (fst (handle r))) ->
  forall w, Forall Q (log (request_loop req handle w)).
Proof.
  intros Hreq Hh. induction w as [|[r|] w IH]; simpl.
  - now constructor.
  - specialize (Hh r). destruct (handle r) as [t [e|[a|]]]; simpl in *.
    + now constructor.
    + now constructor.
    + constructor; [exact Hreq|]. apply Forall_app. now split.
  - now constructor.
Qed.

Lemma model_ref_split :
  split_once "/" MODEL_REF = Some ("meta", "meta-llama-3-8b-instruct").
Proof. reflexivity. Qed.

Lemma run_replicate_model_stages (system_prompt prompt : string)
    (max_tokens : Z) (temperature : pyfloat) (w : world) :
  TOKEN <> EmptyString ->
  run_replicate_model system_prompt prompt max_tokens temperature w =
  (vid <- lookup_version ;;
   pid <- submit vid system_prompt prompt max_tokens temperature ;;
   poll pid) w.
Proof.
  intros Htok. unfold run_replicate_model.
  destruct TOKEN as [|c tok] eqn:Etok; [congruence|].
  rewrite model_ref_split. unfold lookup_version.
  rewrite bind_bind. rewrite (bind_run (request _)), (bind_run (request _) _ w).
  destruct (request _ w) as [[r| e |] w1 t1]; try reflexivity.
  f_equal. now rewrite bind_bind.
Qed.

Lemma local_pure_run {A : Type} (x : exn + A) (w : world) :
  local (pure x) w =
  match x with
  | inr a => Result (Ret a) w []
  | inl e => Result (Raise e) w []
  end.
Proof. destruct x; reflexivity. Qed.

Lemma run_replicate_model_log (system_prompt prompt : string)
    (max_tokens : Z) (temperature : pyfloat) (w : world) :
  Forall (call_event system_prompt prompt max_tokens temperature)
    (log (run_replicate_model system_prompt prompt max_tokens temperature w)).
Proof.
  destruct TOKEN as [|c tok] eqn:Etok.
  - unfold run_replicate_model. rewrite Etok. constructor.
  - rewrite run_replicate_model_stages by congruence.
    assert (Hsleep : forall e, sleep_event e ->
              call_event system_prompt prompt max_tokens temperature e)
      by (intros []; simpl; tauto).
    assert (Hv : Forall (call_event system_prompt prompt max_tokens temperature)
                   (log (lookup_version w))).
    { unfold lookup_version. rewrite bind_run.
      destruct w as [|[r|] w]; simpl; try (repeat constructor).
      destruct (raise_for_status r) as [e|[]]; simpl; [repeat constructor|].
      destruct (response_json r) as [e|j]; simpl; [repeat constructor|].
      destruct (Py.getitem j "latest_version") as [e|lv]; simpl; [repeat constructor|].
      destruct (Py.getitem lv "id"); simpl; repeat constructor. }
    rewrite bind_run.
    destruct (lookup_version w) as [[vid| e |] w1 t1]; simpl in Hv; try exact Hv.
    rewrite log_after. apply Forall_app; split; [exact Hv|].
    rewrite bind_run.
    assert (Hs : Forall (call_event system_prompt prompt max_tokens temperature)
                   (log (submit vid system_prompt prompt max_tokens temperature w1))).
    { apply request_loop_log.
      - simpl. now exists vid.
      - intros r. eapply Forall_impl; [exact Hsleep|apply create_prediction_events]. }
    destruct (submit vid system_prompt prompt max_tokens temperature w1)
      as [[pid| e |] w2 t2]; simpl in Hs; try exact Hs.
    rewrite log_after. apply Forall_app; split; [exact Hs|].
    apply request_loop_log; [exact I|].
    intros r. eapply Forall_impl; [exact Hsleep|apply poll_prediction_events].
Qed.

Lemma call_events_are_client (system_prompt prompt : string) (max_tokens : Z)
    (temperature : pyfloat) (t : list event) :
  Forall (call_event system_prompt prompt max_tokens temperature) t ->
  nodes_of t = [] /\ writes_of t = [].
Proof.
  induction 1 as [|e t He _ [IHn IHw]]; [now split|].
  destruct e; simpl in *; try contradiction; now split.
Qed.

End ClientFacts.

(** ** The submission loop under rate limiting *)

Section Submission.
Context `{Platform}.





Lemma create_prediction_429 (r : Response) :
  status_code r = 429 -> 0 <= retry_after_of r + 1 <= sleep_limit ->
  create_prediction r = ([EvSleep (retry_after_of r + 1)], inr Again).
Proof.
  intros E Hs. unfold create_prediction. rewrite E. simpl.
  now rewrite (time_sleep_ok Hs).
Qed.




Lemma retries_after_429 (req : event) (pre : list Response) (rest : world) :
  Forall (fun r => status_code r = 429 /\ 0 <= retry_after_of r + 1 <= sleep_limit) pre ->
  request_loop req create_prediction (map Got pre ++ rest)%list =
  after (flat_map (fun r => [req; EvSleep (retry_after_of r + 1)]) pre)
    (request_loop req create_prediction rest).
Proof.
  induction 1 as [|r pre [E Hs] _ IH]; simpl.
  - now rewrite after_nil.
  - rewrite (create_prediction_429 r E Hs), IH. now rewrite after_after.
Qed.


End Submission.

(** ** The polling loop *)

Lemma append_empty (s : string) : s ++ EmptyString = s.
Proof. induction s as [|c s IH]; simpl; [reflexivity|now rewrite IH]. Qed.

Lemma join_fragments (frags : list string) :
  Py.join (map VStr frags) = inr (String.concat EmptyString frags).
Proof.
  induction frags as [|s frags IH]; [reflexivity|].
  simpl. rewrite IH. destruct frags as [|s' frags]; simpl.
  - now rewrite append_empty.
  - reflexivity.
Qed.

Lemma join_inv (items : list value) (text : string) :
  Py.join items = inr text ->
  exists frags, items = map VStr frags /\ text = String.concat EmptyString frags.
Proof.
  revert text. induction items as [|v items IH]; simpl; intros text.
  - intros [= <-]. now exists [].
  - destruct v; try discriminate.
    destruct (Py.join items) as [e|t] eqn:Ej; [discriminate|].
    intros [= <-]. destruct (IH t eq_refl) as (frags & -> & ->).
    exists (s :: frags). split; [reflexivity|].
    pose proof (join_fragments (s :: frags)) as Ejoin.
    simpl in Ejoin. rewrite Ej in Ejoin. now injection Ejoin.
Qed.

Lemma join_not_text (items : list value) (v : value) :
  In v items -> (forall s, v <> VStr s) -> Py.join items = inl TypeError.
Proof.
  intros Hin Hv. induction items as [|x items IH]; [contradiction|].
  destruct Hin as [-> | Hin].
  - destruct v; try reflexivity. now contradiction (Hv s).
  - simpl. rewrite (IH Hin). now destruct x.
Qed.

Lemma eq_str_true (v : value) (s : string) :
  Py.eq_str v s = true -> v = VStr s.
Proof.
  destruct v; simpl; try discriminate.
  intros E. apply String.eqb_eq in E. now subst.
Qed.

Section Polling.
Context `{Platform}.

Lemma poll_pending (r : Response) :
  pending r -> poll_prediction r = ([EvSleep 1], inr Again).
Proof.
  intros (status & (d & Ej & Es) & Hs1 & Hs2 & Hs3).
  pose proof sleep_limit_second as Hl.
  unfold poll_prediction, response_json. rewrite Ej. simpl. rewrite Es. simpl.
  rewrite Hs1, Hs2, Hs3. simpl.
  rewrite time_sleep_ok by lia. reflexivity.
Qed.

Lemma poll_succeeded (r : Response) :
  reports r (VStr "succeeded") ->
  poll_prediction r =
  match output_of r with
  | None => ([], inr (Leave EmptyString))
  | Some (VList items) =>
      match Py.join items with
      | inr joined => ([], inr (Leave joined))
      | inl e => ([], inl e)
      end
  | Some out => ([], inr (Leave (str out)))
  end.
Proof.
  intros (d & Ej & Es).
  unfold poll_prediction, response_json, output_of. rewrite Ej. simpl. rewrite Es. simpl.
  destruct (Py.lookup "output" d) as [out|]; simpl; [|reflexivity].
  destruct out; simpl; try reflexivity.
  destruct (Py.join items); reflexivity.
Qed.

Lemma poll_failed (r : Response) (d : list (string * value)) (status : string) :
  json r = Some (VDict d) -> Py.lookup "status" d = Some (VStr status) ->
  status = "failed" \/ status = "canceled" ->
  poll_prediction r =
  ([], inl (RuntimeError ("Replicate prediction " ++ status ++ ": " ++ str (VDict d)))).
Proof.
  intros Ej Es Hs.
  unfold poll_prediction, response_json. rewrite Ej. simpl. rewrite Es.
  destruct Hs as [-> | ->]; reflexivity.
Qed.

(** What a pass of the loop did, read back from its result. *)
Lemma poll_prediction_inv (r : Response) (t : list event) (x : exn + pass string) :
  poll_prediction r = (t, x) ->
  match x with
  | inr (Leave _) => reports r (VStr "succeeded")
  | inr Again => pending r /\ t = [EvSleep 1]
  | inl (RuntimeError _) =>
      exists status, reports r (VStr status) /\ (status = "failed" \/ status = "canceled")
  | inl _ => True
  end.
Proof.
  unfold poll_prediction, response_json.
  destruct (json r) as [j|] eqn:Ej; simpl; [|intros [= <- <-]; exact I].
  destruct (Py.getitem j "status") as [e|status] eqn:Es; simpl.
  { intros [= <- <-]. destruct j; simpl in Es; try (inversion Es; subst; exact I).
    destruct (Py.lookup "status" items); inversion Es; exact I. }
  assert (Hrep : reports r status).
  { destruct j; simpl in Es; try discriminate.
    exists items. split; [exact Ej|].
    destruct (Py.lookup "status" items); now inversion Es. }
  destruct (Py.eq_str status "succeeded") eqn:E1.
  - apply eq_str_true in E1. subst status.
    assert (Hout : exists out, Py.get j "output" (VStr EmptyString) = inr out).
    { destruct j; simpl in Es; try discriminate. simpl.
      destruct (Py.lookup "output" items); eauto. }
    destruct Hout as [out ->]. simpl.
    + destruct out; simpl; try (intros [= <- <-]; exact Hrep).
      destruct (Py.join items) as [e|s] eqn:Ejoin; simpl; intros [= <- <-]; [|exact Hrep].
      destruct e; try exact I.
      exfalso. clear -Ejoin. revert msg Ejoin.
      induction items as [|v items IH]; simpl; intros msg; [discriminate|].
      destruct v; try discriminate.
      destruct (Py.join items) as [e|s']; [|discriminate].
      intros [= ->]. now apply (IH msg).
  - destruct (Py.eq_str status "failed") eqn:E2; simpl.
    + intros [= <- <-]. apply eq_str_true in E2. subst. exists "failed". auto.
    + destruct (Py.eq_str status "canceled") eqn:E3; simpl.
      * intros [= <- <-]. apply eq_str_true in E3. subst. exists "canceled". auto.
      * unfold time_sleep. simpl.
        destruct (sleep_limit <? 1); simpl; intros [= <- <-]; [exact I|].
        split; [|reflexivity]. exists status. repeat split; assumption.
Qed.

(** A loop that has ended went round on every reply but the last one. *)
Lemma request_loop_inv {A : Type} (req : event) (handle : Response -> Local (pass A))
    (w : world) (o : outcome A) (w' : world) (t : list event) :
  request_loop req handle w = Result o w' t -> o <> Blocked ->
  exists pre x,
    w = (map Got pre ++ x :: w')%list /\
    Forall (fun r => exists u, handle r = (u, inr Again)) pre /\
    match x with
    | Lost => o = Raise TransportError
    | Got r => exists u, handle r = (u, match o with
                                        | Ret a => inr (Leave a)
                                        | Raise e => inl e
                                        | Blocked => inr Again
                                        end)
    end.
Proof.
  revert o w' t. induction w as [|[r|] w IH]; intros o w' t; simpl.
  - intros [= <- _ _] Ho. now contradiction Ho.
  - destruct (handle r) as [u [e|[a|]]] eqn:Eh.
    + intros [= <- <- _] _. exists [], (Got r). repeat split; eauto.
    + intros [= <- <- _] _. exists [], (Got r). repeat split; eauto.
    + destruct (request_loop req handle w) as [o1 w1 t1] eqn:El.
      unfold after; simpl. intros [= -> -> _] Ho.
      destruct (IH _ _ _ eq_refl Ho) as (pre & x & -> & Hpre & Hx).
      exists (r :: pre), x. repeat split; eauto.
  - intros [= <- <- _] _. exists [], Lost. now repeat split.
Qed.

Lemma polls_while_pending (req : event) (pre : list Response) (rest : world) :
  Forall pending pre ->
  request_loop req poll_prediction (map Got pre ++ rest)%list =
  after (flat_map (fun _ => [req; EvSleep 1]) pre) (request_loop req poll_prediction rest).
Proof.
  induction 1 as [|r pre Hr _ IH]; simpl.
  - now rewrite after_nil.
  - rewrite (poll_pending Hr), IH. now rewrite after_after.
Qed.

(** The text a pass returned, read back from the poll it returned on. *)
Lemma poll_leave_inv (r : Response) (t : list event) (text : string) :
  poll_prediction r = (t, inr (Leave text)) ->
  reports r (VStr "succeeded") /\
  match output_of r with
  | None => text = EmptyString
  | Some (VList items) =>
      exists frags, items = map VStr frags /\ text = String.concat EmptyString frags
  | Some out => text = match out with VStr s => s | _ => py_repr out end
  end.
Proof.
  intros E. pose proof (poll_prediction_inv _ E) as Hrep. simpl in Hrep.
  split; [exact Hrep|].
  rewrite (poll_succeeded Hrep) in E.
  destruct (output_of r) as [out|]; [|now injection E].
  destruct out; try (now injection E).
  destruct (Py.join items) as [e|joined] eqn:Ej; [discriminate|].
  injection E as _ <-. now apply join_inv.
Qed.

(** The message a pass raised, read back from the poll it raised on. *)
Lemma poll_error_inv (r : Response) (t : list event) (msg : string) :
  poll_prediction r = (t, inl (RuntimeError msg)) ->
  exists d status,
    json r = Some (VDict d) /\ Py.lookup "status" d = Some (VStr status) /\
    (status = "failed" \/ status = "canceled") /\
    msg = "Replicate prediction " ++ status ++ ": " ++ py_repr (VDict d).
Proof.
  intros E. pose proof (poll_prediction_inv _ E) as Hrep. simpl in Hrep.
  destruct Hrep as (status & (d & Ej & Es) & Hst).
  exists d, status. repeat split; try assumption.
  rewrite (poll_failed _ Ej Es Hst) in E. now injection E.
Qed.

End Polling.

(** ** The nodes, run *)

Section NodeFacts.
Context `{Platform}.

Lemma router_run (state : State.t) (w : world) :
  router state w =
  match State.user_input state with
  | None => Result (Raise (KeyError "user_input")) w []
  | Some q =>
      match run_replicate_model ROUTER_PROMPT q 120 float_0_2 w with
      | Result (Ret raw) w1 t1 =>
          Result (Ret (State.set_route
                         (match json_loads raw with
                          | Some v => v
                          | None => router_fallback
                          end) state))
                 w1 (t1 ++ [EvWrite "route"])%list
      | Result (Raise e) w1 t1 => Result (Raise e) w1 t1
      | Result Blocked w1 t1 => Result Blocked w1 t1
      end
  end.
Proof.
  unfold router, get_user_input.
  destruct (State.user_input state) as [q|]; [|reflexivity].
  rewrite bind_run. simpl. rewrite after_nil.
  destruct (run_replicate_model ROUTER_PROMPT q 120 float_0_2 w) as [[raw| e |] w1 t1];
    try reflexivity.
  destruct (json_loads raw); reflexivity.
Qed.

Lemma command_run (state : State.t) (w : world) :
  command state w =
  match State.user_input state with
  | None => Result (Raise (KeyError "user_input")) w []
  | Some q =>
      match run_replicate_model COMMAND_PROMPT q 200 float_0_2 w with
      | Result (Ret raw) w1 t1 =>
          Result (Ret (State.set_command
                         (match json_loads raw with
                          | Some v => v
                          | None => command_fallback
                          end) state))
                 w1 (t1 ++ [EvWrite "command"])%list
      | Result (Raise e) w1 t1 => Result (Raise e) w1 t1
      | Result Blocked w1 t1 => Result Blocked w1 t1
      end
  end.
Proof.
  unfold command, get_user_input.
  destruct (State.user_input state) as [q|]; [|reflexivity].
  rewrite bind_run. simpl. rewrite after_nil.
  destruct (run_replicate_model COMMAND_PROMPT q 200 float_0_2 w) as [[raw| e |] w1 t1];
    try reflexivity.
  destruct (json_loads raw); reflexivity.
Qed.

Lemma answer_run (state : State.t) (w : world) :
  answer state w =
  match State.user_input state with
  | None => Result (Raise (KeyError "user_input")) w []
  | Some q =>
      match run_replicate_model SYSTEM_PROMPT (q ++ tool_info state) 300 float_0_3 w with
      | Result (Ret r) w1 t1 =>
          Result (Ret (State.set_reply r state)) w1 (t1 ++ [EvWrite "reply"])%list
      | Result (Raise e) w1 t1 => Result (Raise e) w1 t1
      | Result Blocked w1 t1 => Result Blocked w1 t1
      end
  end.
Proof.
  unfold answer, get_user_input.
  destruct (State.user_input state) as [q|]; [|reflexivity].
  rewrite bind_run. simpl. rewrite after_nil.
  destruct (run_replicate_model SYSTEM_PROMPT (q ++ tool_info state) 300 float_0_3 w)
    as [[r| e |] w1 t1]; reflexivity.
Qed.

End NodeFacts.

(** ** The edges of the graph and the run along them *)

Section GraphFacts.
Context `{Platform}.

Lemma next_after_router (state : State.t) :
  next_node graph "router" state = route_decision state.
Proof.
  unfold next_node. simpl. unfold route_decision.
  destruct (State.route state) as [r|]; [|reflexivity].
  destruct (Py.get r "use_command_tool" VNone) as [e|flag]; [reflexivity|].
  simpl. destruct (Py.truthy flag); reflexivity.
Qed.

Lemma next_after_command (state : State.t) :
  next_node graph "command" state = inr "answer".
Proof. reflexivity. Qed.

Lemma next_after_answer (state : State.t) :
  next_node graph "answer" state = inr END.
Proof. reflexivity. Qed.

Lemma run_from_end (g : StateGraph) (limit : nat) (state : State.t) (w : world) :
  run_from g limit END state w = Result (Ret state) w [].
Proof. destruct limit; reflexivity. Qed.

Lemma run_from_answer (limit : nat) (state : State.t) (w : world) :
  run_from graph (S limit) "answer" state w = after [EvNode "answer"] (answer state w).
Proof.
  simpl. f_equal.
  destruct (answer state w) as [[s| e |] w1 t1]; try reflexivity.
  rewrite run_from_end. unfold after; simpl. now rewrite app_nil_r.
Qed.

Lemma run_from_command (limit : nat) (state : State.t) (w : world) :
  run_from graph (S (S limit)) "command" state w =
  after [EvNode "command"]
    match command state w with
    | Result (Ret s) w1 t1 => after (t1 ++ [EvNode "answer"])%list (answer s w1)
    | Result (Raise e) w1 t1 => Result (Raise e) w1 t1
    | Result Blocked w1 t1 => Result Blocked w1 t1
    end.
Proof.
  change (run_from graph (S (S limit)) "command" state w)
    with (after [EvNode "command"]
            match command state w with
            | Result (Ret s) w1 t1 =>
                after t1 (after [] (run_from graph (S limit) "answer" s w1))
            | Result (Raise e) w1 t1 => Result (Raise e) w1 t1
            | Result Blocked w1 t1 => Result Blocked w1 t1
            end).
  f_equal. destruct (command state w) as [[s| e |] w1 t1]; try reflexivity.
  rewrite run_from_answer, after_nil, after_after. reflexivity.
Qed.

Lemma CHAT_GRAPH_run (state : State.t) (w : world) :
  CHAT_GRAPH state w =
  after [EvNode "router"]
    match router state w with
    | Result (Ret s1) w1 t1 =>
        match route_decision s1 with
        | inl e => Result (Raise e) w1 t1
        | inr target => after t1 (run_from graph 24 target s1 w1)
        end
    | Result (Raise e) w1 t1 => Result (Raise e) w1 t1
    | Result Blocked w1 t1 => Result Blocked w1 t1
    end.
Proof.
  change (CHAT_GRAPH state w)
    with (after [EvNode "router"]
            match router state w with
            | Result (Ret s1) w1 t1 =>
                after t1 (bind (local (pure (next_node graph "router" s1)))
                            (fun target => run_from graph 24 target s1) w1)
            | Result (Raise e) w1 t1 => Result (Raise e) w1 t1
            | Result Blocked w1 t1 => Result Blocked w1 t1
            end).
  f_equal. destruct (router state w) as [[s1| e |] w1 t1]; try reflexivity.
  rewrite bind_run, local_pure_run, next_after_router.
  destruct (route_decision s1) as [e|target].
  - unfold after; simpl. now rewrite app_nil_r.
  - now rewrite after_nil.
Qed.

End GraphFacts.

(** ** Truth and emptiness; the logs of the nodes *)


Lemma truthy_non_empty (v : value) : Py.truthy v = true <-> non_empty v.
Proof.
  destruct v as [|b|z|[m e|n|]|s|l|d]; simpl.
  - split; [discriminate|contradiction].
  - tauto.
  - now rewrite negb_true_iff, Z.eqb_neq.
  - now rewrite negb_true_iff, Z.eqb_neq.
  - tauto.
  - tauto.
  - destruct s; split; congruence.
  - destruct l; split; congruence.
  - destruct d; split; congruence.
Qed.

Section RunFacts.
Context `{Platform}.

Lemma model_call_quiet (system_prompt prompt : string) (max_tokens : Z)
    (temperature : pyfloat) (w : world) :
  nodes_of (log (run_replicate_model system_prompt prompt max_tokens temperature w)) = []
  /\ writes_of (log (run_replicate_model system_prompt prompt max_tokens temperature w)) = [].
Proof. eapply call_events_are_client, run_replicate_model_log. Qed.

Lemma router_log (state : State.t) (w : world) :
  nodes_of (log (router state w)) = [] /\
  writes_of (log (router state w)) =
    match outcome_of (router state w) with Ret _ => ["route"] | _ => [] end.
Proof.
  rewrite router_run. destruct (State.user_input state) as [q|]; [|now split].
  destruct (model_call_quiet ROUTER_PROMPT q 120 float_0_2 w) as [Hn Hw].
  destruct (run_replicate_model ROUTER_PROMPT q 120 float_0_2 w) as [[raw| e |] w1 t1];
    simpl in *; try now split.
  now rewrite nodes_of_app, writes_of_app, Hn, Hw.
Qed.

Lemma command_log (state : State.t) (w : world) :
  nodes_of (log (command state w)) = [] /\
  writes_of (log (command state w)) =
    match outcome_of (command state w) with Ret _ => ["command"] | _ => [] end.
Proof.
  rewrite command_run. destruct (State.user_input state) as [q|]; [|now split].
  destruct (model_call_quiet COMMAND_PROMPT q 200 float_0_2 w) as [Hn Hw].
  destruct (run_replicate_model COMMAND_PROMPT q 200 float_0_2 w) as [[raw| e |] w1 t1];
    simpl in *; try now split.
  now rewrite nodes_of_app, writes_of_app, Hn, Hw.
Qed.

Lemma answer_log (state : State.t) (w : world) :
  nodes_of (log (answer state w)) = [] /\
  writes_of (log (answer state w)) =
    match outcome_of (answer state w) with Ret _ => ["reply"] | _ => [] end.
Proof.
  rewrite answer_run. destruct (State.user_input state) as [q|]; [|now split].
  destruct (model_call_quiet SYSTEM_PROMPT (q ++ tool_info state) 300 float_0_3 w)
    as [Hn Hw].
  destruct (run_replicate_model SYSTEM_PROMPT (q ++ tool_info state) 300 float_0_3 w)
    as [[raw| e |] w1 t1]; simpl in *; try now split.
  now rewrite nodes_of_app, writes_of_app, Hn, Hw.
Qed.

(** What a node that returned has done to the state. *)
Lemma router_returns (state s1 : State.t) (w w1 : world) (t1 : list event) :
  router state w = Result (Ret s1) w1 t1 ->
  exists v, s1 = State.set_route v state.
Proof.
  rewrite router_run. destruct (State.user_input state) as [q|]; [|discriminate].
  destruct (run_replicate_model ROUTER_PROMPT q 120 float_0_2 w) as [[raw| e |] w0 t0];
    try discriminate.
  intros [= <- _ _]. eauto.
Qed.

Lemma command_returns (state s2 : State.t) (w w2 : world) (t2 : list event) :
  command state w = Result (Ret s2) w2 t2 ->
  exists c, s2 = State.set_command c state.
Proof.
  rewrite command_run. destruct (State.user_input state) as [q|]; [|discriminate].
  destruct (run_replicate_model COMMAND_PROMPT q 200 float_0_2 w) as [[raw| e |] w0 t0];
    try discriminate.
  intros [= <- _ _]. eauto.
Qed.

Lemma answer_returns (state out : State.t) (w w' : world) (t : list event) :
  answer state w = Result (Ret out) w' t ->
  exists r, out = State.set_reply r state.
Proof.
  rewrite answer_run. destruct (State.user_input state) as [q|]; [|discriminate].
  destruct (run_replicate_model SYSTEM_PROMPT (q ++ tool_info state) 300 float_0_3 w)
    as [[raw| e |] w0 t0]; try discriminate.
  intros [= <- _ _]. eauto.
Qed.

(** The run once the router has returned and the branch is known. *)
Lemma run_to_answer (state s1 : State.t) (w w1 : world) (t1 : list event) :
  router state w = Result (Ret s1) w1 t1 ->
  route_decision s1 = inr "answer" ->
  CHAT_GRAPH state w =
  after (EvNode "router" :: t1 ++ [EvNode "answer"])%list (answer s1 w1).
Proof.
  intros Er Ed. rewrite CHAT_GRAPH_run, Er, Ed, run_from_answer, !after_after.
  reflexivity.
Qed.

Lemma run_to_command (state s1 : State.t) (w w1 : world) (t1 : list event) :
  router state w = Result (Ret s1) w1 t1 ->
  route_decision s1 = inr "command" ->
  CHAT_GRAPH state w =
  after (EvNode "router" :: t1 ++ [EvNode "command"])%list
    match command s1 w1 with
    | Result (Ret s2) w2 t2 => after (t2 ++ [EvNode "answer"])%list (answer s2 w2)
    | Result (Raise e) w2 t2 => Result (Raise e) w2 t2
    | Result Blocked w2 t2 => Result Blocked w2 t2
    end.
Proof.
  intros Er Ed. rewrite CHAT_GRAPH_run, Er, Ed, run_from_command, !after_after.
  reflexivity.
Qed.

Lemma route_decision_cases (state : State.t) :
  match route_decision state with
  | inr target => target = "command" \/ target = "answer"
  | inl _ => True
  end.
Proof.
  unfold route_decision. destruct (State.route state) as [r|]; [|exact I].
  destruct (Py.get r "use_command_tool" VNone) as [e|flag]; [exact I|].
  simpl. destruct (Py.truthy flag); auto.
Qed.

Lemma route_decision_object (state : State.t) (d : list (string * value)) :
  State.route state = Some (VDict d) ->
  route_decision state =
  inr (if Py.truthy (match Py.lookup "use_command_tool" d with
                     | Some v => v
                     | None => VNone
                     end)
       then "command" else "answer").
Proof.
  intros E. unfold route_decision. rewrite E. simpl.
  destruct (Py.lookup "use_command_tool" d); reflexivity.
Qed.

End RunFacts.

(** ** The decoding steps *)

Section Decoding.
Context `{Platform}.


(** C4. When the text the command's model call returns does not decode, the
    command node stores the record with an empty [generated_command], no
    missing fields and the notes [Command output not valid JSON], which is
    then what the state holds under its command key, the other keys
    unchanged; it returns normally and the run goes on into the [answer]
    node. *)
Theorem command_falls_back_on_malformed_output
    (state : State.t) (q raw : string) (w w1 : world) (t1 : list event)
    (limit : nat) :
  State.user_input state = Some q ->
  run_replicate_model COMMAND_PROMPT q 200 float_0_2 w = Result (Ret raw) w1 t1 ->
  json_loads raw = None ->
  let fallback := VDict [("generated_command", VStr EmptyString);
                         ("missing_fields", VList []);
                         ("notes", VStr "Command output not valid JSON")] in
  let s2 := State.set_command fallback state in
  command state w = Result (Ret s2) w1 (t1 ++ [EvWrite "command"])%list
  /\ State.command s2 = Some fallback
  /\ command_field s2 "generated_command" = Some (VStr EmptyString)
  /\ command_field s2 "missing_fields" = Some (VList [])
  /\ command_field s2 "notes" = Some (VStr "Command output not valid JSON")
  /\ State.user_input s2 = State.user_input state
  /\ State.route s2 = State.route state
  /\ next_node graph "command" s2 = inr "answer"
  /\ run_from graph (S (S limit)) "command" state w =
     after (EvNode "command" :: t1 ++ [EvWrite "command"; EvNode "answer"])%list
       (answer s2 w1).
Proof.
  intros Hq Hcall Hraw fallback s2.
  assert (Ec : command state w = Result (Ret s2) w1 (t1 ++ [EvWrite "command"])%list).
  { rewrite command_run, Hq, Hcall, Hraw. reflexivity. }
  repeat split; try assumption; try reflexivity.
  rewrite run_from_command, Ec, after_after. simpl. now rewrite <- !app_assoc.
Qed.

(** C10. When the text the router's model call returns decodes to a value
    that is not an object (an array, a number, a string, a constant), no
    fallback is substituted: that value is stored as the route, the field
    access of the branch function raises [AttributeError], and the run ends
    with that exception after the router node, with no other node entered. *)
Theorem router_stores_non_object_and_branch_raises
    (state : State.t) (q raw : string) (v : value) (w w1 : world)
    (t1 : list event) :
  State.user_input state = Some q ->
  run_replicate_model ROUTER_PROMPT q 120 float_0_2 w = Result (Ret raw) w1 t1 ->
  json_loads raw = Some v ->
  Py.is_dict v = false ->
  router state w = Result (Ret (State.set_route v state)) w1 (t1 ++ [EvWrite "route"])%list
  /\ State.route (State.set_route v state) = Some v
  /\ route_decision (State.set_route v state) = inl AttributeError
  /\ CHAT_GRAPH state w =
     Result (Raise AttributeError) w1 (EvNode "router" :: t1 ++ [EvWrite "route"])%list.
Proof.
  intros Hq Hcall Hraw Hv.
  assert (Er : router state w =
               Result (Ret (State.set_route v state)) w1 (t1 ++ [EvWrite "route"])%list).
  { rewrite router_run, Hq, Hcall, Hraw. reflexivity. }
  assert (Ed : route_decision (State.set_route v state) = inl AttributeError).
  { unfold route_decision. simpl. destruct v; simpl in *; congruence. }
  repeat split; try assumption.
  rewrite CHAT_GRAPH_run, Er, Ed. reflexivity.
Qed.

End Decoding.


(** ** The branch and the order of the nodes *)

Section Branching.
Context `{Platform}.

(** C2, as the code has it. For every state whose stored route is a JSON
    object, the step after the router is [command] exactly when the
    [use_command_tool] field passes Python's truth test, and [answer]
    otherwise, which includes the absent field; for a boolean field that is:
    exactly when it is true. The step after [command] is [answer] whatever the
    state. *)
Theorem branch_follows_truth_of_flag (state : State.t) (d : list (string * value)) :
  State.route state = Some (VDict d) ->
  let flag := match Py.lookup "use_command_tool" d with
              | Some v => v
              | None => VNone
              end in
  (next_node graph "router" state = inr "command" <-> non_empty flag)
  /\ (next_node graph "router" state = inr "answer" <-> ~ non_empty flag)
  /\ (Py.lookup "use_command_tool" d = None -> next_node graph "router" state = inr "answer")
  /\ (forall b, Py.lookup "use_command_tool" d = Some (VBool b) ->
        (next_node graph "router" state = inr "command" <-> b = true))
  /\ (forall s, next_node graph "command" s = inr "answer").
Proof.
  intros Hr flag.
  assert (E : next_node graph "router" state =
              inr (if Py.truthy flag then "command" else "answer")).
  { rewrite next_after_router. now apply route_decision_object. }
  pose proof (truthy_non_empty flag) as Ht.
  repeat split.
  - rewrite E. destruct (Py.truthy flag); [intros _; now apply Ht|discriminate].
  - intros Hn. apply Ht in Hn. now rewrite E, Hn.
  - rewrite E. destruct (Py.truthy flag); [discriminate|].
    intros _ Hn. apply Ht in Hn. discriminate.
  - intros Hn. rewrite E. destruct (Py.truthy flag); [|reflexivity].
    exfalso. apply Hn. now apply Ht.
  - intros Hd. rewrite E. subst flag. now rewrite Hd.
  - rewrite E. subst flag. rewrite H0. simpl. destruct b; [reflexivity|discriminate].
  - intros ->. rewrite E. subst flag. now rewrite H0.
Qed.

(** C6. When the route the router stored is an object whose
    [use_command_tool] is false, the run enters the router and the answer
    node and no other, never assigns the [command] key, and a final state,
    if the run reaches one, has no command record. *)
Theorem no_command_when_flag_is_false
    (q : string) (w w1 : world) (s1 : State.t) (t1 : list event)
    (d : list (string * value)) :
  router (State.initial q) w = Result (Ret s1) w1 t1 ->
  State.route s1 = Some (VDict d) ->
  Py.lookup "use_command_tool" d = Some (VBool false) ->
  nodes_of (log (CHAT_GRAPH (State.initial q) w)) = ["router"; "answer"]
  /\ ~ In "command" (writes_of (log (CHAT_GRAPH (State.initial q) w)))
  /\ (forall out w' t,
        CHAT_GRAPH (State.initial q) w = Result (Ret out) w' t ->
        State.command out = None).
Proof.
  intros Er Hr Hd.
  assert (Ed : route_decision s1 = inr "answer").
  { rewrite (route_decision_object _ Hr), Hd. reflexivity. }
  pose proof (run_to_answer _ _ Er Ed) as Eg.
  pose proof (router_log (State.initial q) w) as [Hn Hw].
  rewrite Er in Hn, Hw. simpl in Hn, Hw.
  destruct (answer_log s1 w1) as [Han Haw].
  assert (Elog : log (CHAT_GRAPH (State.initial q) w) =
                 ([EvNode "router"] ++ t1 ++ [EvNode "answer"] ++ log (answer s1 w1))%list).
  { rewrite Eg, log_after. simpl. now rewrite <- app_assoc. }
  repeat split.
  - rewrite Elog, !nodes_of_app, Hn, Han. reflexivity.
  - rewrite Elog, !writes_of_app, Hw, Haw. simpl.
    destruct (outcome_of (answer s1 w1)); simpl; intuition discriminate.
  - intros out w' t E. rewrite Eg in E.
    destruct (answer s1 w1) as [o w2 t2] eqn:Ea.
    unfold after in E; simpl in E. injection E as -> _ _.
    apply answer_returns in Ea as [r ->].
    apply router_returns in Er as [v ->]. reflexivity.
Qed.

(** The shape of a run of the graph that reached its end. *)
Lemma finished_run_shape (state out : State.t) (w w' : world) (t : list event) :
  CHAT_GRAPH state w = Result (Ret out) w' t ->
  exists before asked r,
    t = (before ++ EvNode "answer" :: asked ++ [EvWrite "reply"])%list
    /\ nodes_of asked = [] /\ writes_of asked = []
    /\ (nodes_of before = ["router"] /\ writes_of before = ["route"]
        \/ nodes_of before = ["router"; "command"]
           /\ writes_of before = ["route"; "command"])
    /\ State.reply out = Some r.
Proof.
  intros E. rewrite CHAT_GRAPH_run in E.
  destruct (router state w) as [[s1| e |] w1 t1] eqn:Er; try discriminate.
  pose proof (router_log state w) as [Hn Hw].
  rewrite Er in Hn, Hw. simpl in Hn, Hw.
  pose proof (route_decision_cases s1) as Hc.
  destruct (route_decision s1) as [e|target]; [discriminate|].
  assert (Hans : forall s w0 o w2 u,
            answer s w0 = Result (Ret o) w2 u ->
            exists asked r, u = (asked ++ [EvWrite "reply"])%list
                            /\ nodes_of asked = [] /\ writes_of asked = []
                            /\ State.reply o = Some r).
  { intros s w0 o w2 u. rewrite answer_run.
    destruct (State.user_input s) as [q|]; [|discriminate].
    pose proof (model_call_quiet SYSTEM_PROMPT (q ++ tool_info s) 300 float_0_3 w0)
      as [Hqn Hqw].
    destruct (run_replicate_model SYSTEM_PROMPT (q ++ tool_info s) 300 float_0_3 w0)
      as [[r| e |] w3 t3]; try discriminate.
    intros [= <- _ <-]. exists t3, r. now repeat split. }
  destruct Hc as [-> | ->].
  - rewrite run_from_command in E.
    destruct (command s1 w1) as [[s2| e |] w2 t2] eqn:Ec; try discriminate.
    pose proof (command_log s1 w1) as [Hcn Hcw].
    rewrite Ec in Hcn, Hcw. simpl in Hcn, Hcw.
    destruct (answer s2 w2) as [[o| e |] w3 t3] eqn:Ea; try discriminate.
    unfold after in E; simpl in E. injection E as <- _ <-.
    destruct (Hans _ _ _ _ _ Ea) as (asked & r & -> & Han & Haw & Hr).
    exists (EvNode "router" :: t1 ++ EvNode "command" :: t2)%list, asked, r.
    repeat split; auto.
    + simpl. now rewrite <- !app_assoc.
    + right. change (EvNode "router" :: t1 ++ EvNode "command" :: t2)%list
        with ([EvNode "router"] ++ t1 ++ [EvNode "command"] ++ t2)%list.
      rewrite !nodes_of_app, !writes_of_app, Hn, Hw, Hcn, Hcw. now split.
  - rewrite run_from_answer in E.
    destruct (answer s1 w1) as [[o| e |] w3 t3] eqn:Ea; try discriminate.
    unfold after in E; simpl in E. injection E as <- _ <-.
    destruct (Hans _ _ _ _ _ Ea) as (asked & r & -> & Han & Haw & Hr).
    exists (EvNode "router" :: t1)%list, asked, r.
    repeat split; auto.
    + left. change (EvNode "router" :: t1)%list with ([EvNode "router"] ++ t1)%list.
      rewrite !nodes_of_app, !writes_of_app, Hn, Hw. now split.
Qed.

(** C5. In every run of the graph from the initial state to its end, the
    answer node is entered exactly once, as the last node, whether the
    command node ran or not; the [reply] key is assigned exactly once, inside
    that last node and as the last assignment; and the final state holds a
    reply. *)
Theorem answer_runs_exactly_once
    (q : string) (w w' : world) (out : State.t) (t : list event) :
  CHAT_GRAPH (State.initial q) w = Result (Ret out) w' t ->
  count_occ string_dec (nodes_of t) "answer" = 1%nat
  /\ count_occ string_dec (writes_of t) "reply" = 1%nat
  /\ (nodes_of t = ["router"; "answer"] /\ writes_of t = ["route"; "reply"]
      \/ nodes_of t = ["router"; "command"; "answer"]
         /\ writes_of t = ["route"; "command"; "reply"])
  /\ (exists before asked,
        t = (before ++ EvNode "answer" :: asked ++ [EvWrite "reply"])%list
        /\ ~ In "reply" (writes_of before)
        /\ nodes_of asked = [])
  /\ (exists r, State.reply out = Some r).
Proof.
  intros E.
  destruct (finished_run_shape E)
    as (before & asked & r & -> & Han & Haw & Hshape & Hr).
  assert (Hn : nodes_of (before ++ EvNode "answer" :: asked ++ [EvWrite "reply"])
               = (nodes_of before ++ ["answer"])%list).
  { change (EvNode "answer" :: asked ++ [EvWrite "reply"])%list
      with ([EvNode "answer"] ++ asked ++ [EvWrite "reply"])%list.
    rewrite !nodes_of_app, Han. reflexivity. }
  assert (Hw : writes_of (before ++ EvNode "answer" :: asked ++ [EvWrite "reply"])
               = (writes_of before ++ ["reply"])%list).
  { change (EvNode "answer" :: asked ++ [EvWrite "reply"])%list
      with ([EvNode "answer"] ++ asked ++ [EvWrite "reply"])%list.
    rewrite !writes_of_app, Haw. reflexivity. }
  rewrite Hn, Hw.
  assert (Hfresh : ~ In "reply" (writes_of before)).
  { destruct Hshape as [[_ ->] | [_ ->]]; simpl; intuition discriminate. }
  destruct Hshape as [[-> ->] | [-> ->]].
  - repeat split; eauto.
  - repeat split; eauto.
Qed.

End Branching.

(** ** The prompt of the answer step *)

Section Prompt.
Context `{Platform}.

Lemma request_loop_starts {A : Type} (req : event)
    (handle : Response -> Local (pass A)) (w : world) :
  exists tl, log (request_loop req handle w) = req :: tl.
Proof.
  destruct w as [|[r|] w]; simpl; eauto.
  destruct (handle r) as [t [e|[a|]]]; simpl; eauto.
Qed.

Lemma posts_of_call_events (system_prompt prompt : string) (max_tokens : Z)
    (temperature : pyfloat) (t : list event) :
  Forall (call_event system_prompt prompt max_tokens temperature) t ->
  Forall (fun b => exists vid,
            b = prediction_request vid system_prompt prompt max_tokens temperature)
    (posts_of t).
Proof.
  induction 1 as [|e t He _ IH]; [constructor|].
  destruct e; simpl in *; try exact IH; try contradiction.
  constructor; assumption.
Qed.

(** A model call that returned has posted its request. *)
Lemma returned_call_has_posted (system_prompt prompt : string) (max_tokens : Z)
    (temperature : pyfloat) (w w' : world) (text : string) (t : list event) :
  run_replicate_model system_prompt prompt max_tokens temperature w
    = Result (Ret text) w' t ->
  posts_of t <> [].
Proof.
  destruct TOKEN as [|c tok] eqn:Etok.
  - unfold run_replicate_model. rewrite Etok. discriminate.
  - rewrite run_replicate_model_stages by congruence.
    intros E. apply bind_ret_inv in E as (vid & w1 & t1 & t2 & _ & E & ->).
    apply bind_ret_inv in E as (pid & w2 & t3 & t4 & Es & _ & ->).
    unfold submit in Es.
    destruct (request_loop_starts
                (EvPost (REPLICATE_API_BASE ++ "/predictions") _headers
                   (prediction_request vid system_prompt prompt max_tokens temperature))
                create_prediction w1) as [tl Htl].
    rewrite Es in Htl. simpl in Htl. subst t3.
    rewrite !posts_of_app. simpl.
    destruct (posts_of t1); discriminate.
Qed.

(** C7. The user prompt of the answer step's model call is the user input
    when the state has no command record, and the user input followed by
    the [CommandTool] block with the serialized command record when it has
    one; every request the step posts carries that prompt, and a step that
    returned has posted one. On the path where [use_command_tool] is true
    the command node runs before the answer node and the record it stored
    is the one serialized in the requests of the answer node. *)
Theorem answer_prompt_carries_command_record
    (state : State.t) (q : string) (w : world) :
  State.user_input state = Some q ->
  let effective := match State.command state with
                   | None => q
                   | Some c => q ++ nl ++ "[CommandTool]" ++ nl ++ json_dumps c ++ nl
                   end in
  answer state w =
    (r <- run_replicate_model SYSTEM_PROMPT effective 300 float_0_3 ;;
     emit (EvWrite "reply") ;;
     ret (State.set_reply r state)) w
  /\ Forall (fun b => exists vid,
               b = prediction_request vid SYSTEM_PROMPT effective 300 float_0_3)
       (posts_of (log (answer state w)))
  /\ (forall out w' t, answer state w = Result (Ret out) w' t -> posts_of t <> [])
  /\ (forall s1 w1 t1 d out w' t,
        router state w = Result (Ret s1) w1 t1 ->
        State.route s1 = Some (VDict d) ->
        Py.lookup "use_command_tool" d = Some (VBool true) ->
        CHAT_GRAPH state w = Result (Ret out) w' t ->
        exists c before asked,
          State.command out = Some c
          /\ t = (before ++ EvNode "answer" :: asked)%list
          /\ nodes_of before = ["router"; "command"]
          /\ nodes_of asked = []
          /\ posts_of asked <> []
          /\ Forall (fun b => exists vid,
                       b = prediction_request vid SYSTEM_PROMPT
                             (q ++ nl ++ "[CommandTool]" ++ nl ++ json_dumps c ++ nl)
                             300 float_0_3)
               (posts_of asked)).
Proof.
  intros Hq effective.
  assert (Heff : q ++ tool_info state = effective).
  { unfold tool_info, effective. destruct (State.command state); [reflexivity|].
    apply append_empty. }
  assert (Ea : answer state w =
               (r <- run_replicate_model SYSTEM_PROMPT effective 300 float_0_3 ;;
                emit (EvWrite "reply") ;;
                ret (State.set_reply r state)) w).
  { unfold answer, get_user_input. rewrite Hq, bind_run. simpl.
    rewrite after_nil, Heff. reflexivity. }
  assert (Hposts : forall s q0 w0, State.user_input s = Some q0 ->
            Forall (fun b => exists vid,
                      b = prediction_request vid SYSTEM_PROMPT (q0 ++ tool_info s)
                            300 float_0_3)
              (posts_of (log (answer s w0)))
            /\ forall o w2 u, answer s w0 = Result (Ret o) w2 u -> posts_of u <> []).
  { intros s q0 w0 Hs. rewrite answer_run, Hs.
    pose proof (run_replicate_model_log SYSTEM_PROMPT (q0 ++ tool_info s) 300
                  float_0_3 w0) as Hlog.
    pose proof (@returned_call_has_posted SYSTEM_PROMPT (q0 ++ tool_info s) 300
                  float_0_3 w0) as Hret.
    destruct (run_replicate_model SYSTEM_PROMPT (q0 ++ tool_info s) 300 float_0_3 w0)
      as [[r| e |] w3 t3]; simpl in *.
    - split.
      + rewrite posts_of_app. simpl. rewrite app_nil_r.
        now apply posts_of_call_events.
      + intros o w2 u [= _ _ <-]. rewrite posts_of_app. simpl. rewrite app_nil_r.
        eapply Hret. reflexivity.
    - split; [now apply posts_of_call_events|discriminate].
    - split; [now apply posts_of_call_events|discriminate]. }
  split; [exact Ea|].
  destruct (Hposts state q w Hq) as [Hall Hsome]. rewrite Heff in Hall.
  split; [exact Hall|]. split; [exact Hsome|].
  intros s1 w1 t1 d out w' t Er Hr Hd E.
  assert (Ed : route_decision s1 = inr "command").
  { rewrite (route_decision_object _ Hr), Hd. reflexivity. }
  rewrite (run_to_command _ _ Er Ed) in E.
  destruct (command s1 w1) as [[s2| e |] w2 t2] eqn:Ec; try discriminate.
  pose proof (router_log state w) as [Hn _]. rewrite Er in Hn. simpl in Hn.
  pose proof (command_log s1 w1) as [Hcn _]. rewrite Ec in Hcn. simpl in Hcn.
  destruct (answer s2 w2) as [o w3 t3] eqn:Eans.
  unfold after in E; simpl in E. injection E as -> _ <-.
  apply command_returns in Ec as [c ->].
  apply router_returns in Er as [v ->].
  assert (Hq2 : State.user_input (State.set_command c (State.set_route v state)) = Some q)
    by exact Hq.
  destruct (Hposts _ _ w2 Hq2) as [Hall2 Hsome2].
  rewrite Eans in Hall2. simpl in Hall2.
  destruct (answer_log (State.set_command c (State.set_route v state)) w2) as [Han _].
  rewrite Eans in Han. simpl in Han.
  pose proof (Hsome2 _ _ _ Eans) as Hne.
  apply answer_returns in Eans as [r ->].
  exists c, (EvNode "router" :: t1 ++ EvNode "command" :: t2)%list, t3.
  repeat split.
  - simpl. rewrite <- !app_assoc. reflexivity.
  - change (EvNode "router" :: t1 ++ EvNode "command" :: t2)%list
      with ([EvNode "router"] ++ t1 ++ [EvNode "command"] ++ t2)%list.
    now rewrite !nodes_of_app, Hn, Hcn.
  - exact Han.
  - exact Hne.
  - exact Hall2.
Qed.

End Prompt.

(** ** The reply of the handler *)

Section Boundary.
Context `{Platform}.

Lemma chat_reply_tool_used (out : State.t) (resp : value) :
  chat_reply out = inr resp ->
  Py.getitem resp "tool_used" =
  inr (VBool (truth_of (command_field out "generated_command")
              || truth_of (command_field out "missing_fields"))).
Proof.
  unfold chat_reply, command_field.
  destruct (State.command out) as [c|].
  - destruct c; simpl; try discriminate.
    destruct (Py.lookup "generated_command" items) as [g|];
      destruct (Py.lookup "missing_fields" items) as [m|]; simpl;
      try destruct (Py.truthy g); simpl; intros [= <-]; reflexivity.
  - simpl. intros [= <-]. reflexivity.
Qed.

(** C1. Whenever the handler answers, its [tool_used] field is true exactly
    when the command record of the final state has a non-empty
    [generated_command] or a non-empty [missing_fields], and false when both
    are empty or absent, in particular when the state has no command record;
    the field is computed from the final state alone: two final states with
    the same command record give the same value. *)
Theorem tool_used_is_derived_from_final_state
    (q : string) (w w' : world) (t : list event) (resp : value) :
  chat q w = Result (Ret resp) w' t ->
  exists out b,
    CHAT_GRAPH (State.initial q) w = Result (Ret out) w' t
    /\ chat_reply out = inr resp
    /\ Py.getitem resp "tool_used" = inr (VBool b)
    /\ (b = true <-> filled (command_field out "generated_command")
                     \/ filled (command_field out "missing_fields"))
    /\ (State.command out = None -> b = false)
    /\ (forall out' resp',
          State.command out' = State.command out ->
          chat_reply out' = inr resp' ->
          Py.getitem resp' "tool_used" = inr (VBool b)).
Proof.
  intros E. unfold chat in E.
  apply bind_ret_inv in E as (out & w1 & t1 & t2 & Eg & El & ->).
  rewrite local_pure_run in El.
  destruct (chat_reply out) as [e|resp0] eqn:Ec; [discriminate|].
  injection El as -> -> <-. rewrite app_nil_r.
  exists out, (truth_of (command_field out "generated_command")
               || truth_of (command_field out "missing_fields")).
  repeat split; auto.
  - now apply chat_reply_tool_used.
  - intros Hb. apply orb_true_iff in Hb as [Hb|Hb]; [left|right];
      (destruct (command_field out _); [now apply truthy_non_empty|discriminate]).
  - intros [Hf|Hf]; apply orb_true_iff; [left|right];
      (destruct (command_field out _); [now apply truthy_non_empty|contradiction]).
  - intros Hn. unfold command_field. now rewrite Hn.
  - intros out' resp' Hsame Ec'. rewrite (chat_reply_tool_used _ Ec').
    unfold command_field. now rewrite Hsame.
Qed.

End Boundary.

(** ** The two loops of the client *)

Section Loops.
Context `{Platform}.


(** C9, as the code has it. While the polls report a status other than
    succeeded, failed and canceled (any other value, known or not), the
    client sleeps one second after each and polls again. At the first poll
    that reports succeeded it returns the output: the fragments joined when
    the output is a list of text fragments, the empty text when there is no
    output, the text itself when the output is a text, and the printed
    value when it is anything else that is not a list; when the output is a
    list that holds an item that is not a text, it raises a [TypeError]
    instead of returning. At the first poll that reports failed or canceled
    it raises a [RuntimeError] whose message is made of the status and the
    whole payload, and of nothing else: the message is the same whatever
    the id of the job. It returns only after a poll that reports succeeded
    with one of the outputs above, and it raises that error only after a
    poll that reports failed or canceled, with that message. *)
Theorem polling_outcomes (pid : value) (waiting : list Response) :
  Forall pending waiting ->
  let shown (v : value) := match v with VStr s => s | _ => py_repr v end in
  let req := EvGet (REPLICATE_API_BASE ++ "/predictions/" ++ shown pid) _headers in
  let polled := flat_map (fun _ : Response => [req; EvSleep 1]) waiting in
  (forall rest,
     poll pid (map Got waiting ++ rest)%list = after polled (poll pid rest))
  /\ poll pid (map Got waiting) = Result Blocked [] (polled ++ [req])%list
  /\ (forall r rest fragments,
        reports r (VStr "succeeded") ->
        output_of r = Some (VList (map VStr fragments)) ->
        poll pid (map Got waiting ++ Got r :: rest)%list
          = Result (Ret (String.concat EmptyString fragments)) rest
              (polled ++ [req])%list)
  /\ (forall r rest,
        reports r (VStr "succeeded") ->
        output_of r = None ->
        poll pid (map Got waiting ++ Got r :: rest)%list
          = Result (Ret EmptyString) rest (polled ++ [req])%list)
  /\ (forall r rest out,
        reports r (VStr "succeeded") ->
        output_of r = Some out -> Py.is_list out = false ->
        poll pid (map Got waiting ++ Got r :: rest)%list
          = Result (Ret (shown out)) rest (polled ++ [req])%list)
  /\ (forall r rest items v,
        reports r (VStr "succeeded") ->
        output_of r = Some (VList items) ->
        In v items -> (forall s, v <> VStr s) ->
        poll pid (map Got waiting ++ Got r :: rest)%list
          = Result (Raise TypeError) rest (polled ++ [req])%list)
  /\ (forall r rest d status,
        json r = Some (VDict d) ->
        Py.lookup "status" d = Some (VStr status) ->
        status = "failed" \/ status = "canceled" ->
        poll pid (map Got waiting ++ Got r :: rest)%list
          = Result (Raise (RuntimeError
                             ("Replicate prediction " ++ status ++ ": "
                              ++ py_repr (VDict d))))
              rest (polled ++ [req])%list)
  /\ (forall w text w' t,
        poll pid w = Result (Ret text) w' t ->
        exists before r,
          w = (map Got before ++ Got r :: w')%list
          /\ Forall pending before /\ reports r (VStr "succeeded")
          /\ match output_of r with
             | None => text = EmptyString
             | Some (VList items) =>
                 exists fragments,
                   items = map VStr fragments
                   /\ text = String.concat EmptyString fragments
             | Some out => text = shown out
             end)
  /\ (forall w msg w' t,
        poll pid w = Result (Raise (RuntimeError msg)) w' t ->
        exists before r d status,
          w = (map Got before ++ Got r :: w')%list
          /\ Forall pending before
          /\ json r = Some (VDict d)
          /\ Py.lookup "status" d = Some (VStr status)
          /\ (status = "failed" \/ status = "canceled")
          /\ msg = "Replicate prediction " ++ status ++ ": " ++ py_repr (VDict d)).
Proof.
  intros Hw shown req polled. unfold poll.
  change (EvGet (REPLICATE_API_BASE ++ "/predictions/" ++ str pid) _headers) with req.
  assert (Hgo : forall rest,
            request_loop req poll_prediction (map Got waiting ++ rest)%list
            = after polled (request_loop req poll_prediction rest))
    by (intros rest; now apply polls_while_pending).
  assert (Hleave : forall r rest a,
            poll_prediction r = ([], inr (Leave a)) ->
            request_loop req poll_prediction (map Got waiting ++ Got r :: rest)%list
            = Result (Ret a) rest (polled ++ [req])%list).
  { intros r rest a Ex. rewrite Hgo. simpl. now rewrite Ex. }
  assert (Hraise : forall r rest e,
            poll_prediction r = ([], inl e) ->
            request_loop req poll_prediction (map Got waiting ++ Got r :: rest)%list
            = Result (Raise e) rest (polled ++ [req])%list).
  { intros r rest e Ex. rewrite Hgo. simpl. now rewrite Ex. }
  assert (Hpre : forall pre,
            Forall (fun r => exists u, poll_prediction r = (u, inr Again)) pre ->
            Forall pending pre).
  { intros pre Hp. eapply Forall_impl; [|exact Hp]. intros r' [u' Hu'].
    now apply poll_prediction_inv in Hu'. }
  split; [exact Hgo|].
  split.
  { rewrite <- (app_nil_r (map Got waiting)), Hgo. reflexivity. }
  split.
  { intros r rest fragments Hrep Hout.
    pose proof (poll_succeeded Hrep) as Ep. rewrite Hout, join_fragments in Ep.
    now apply Hleave. }
  split.
  { intros r rest Hrep Hout.
    pose proof (poll_succeeded Hrep) as Ep. rewrite Hout in Ep.
    now apply Hleave. }
  split.
  { intros r rest out Hrep Hout Hnl.
    pose proof (poll_succeeded Hrep) as Ep. rewrite Hout in Ep.
    assert (Ep' : poll_prediction r = ([], inr (Leave (shown out))))
      by (destruct out; simpl in Hnl; try discriminate; exact Ep).
    now apply Hleave. }
  split.
  { intros r rest items v Hrep Hout Hin Hv.
    pose proof (poll_succeeded Hrep) as Ep.
    rewrite Hout, (join_not_text _ Hin Hv) in Ep.
    now apply Hraise. }
  split.
  { intros r rest d status Ej Es Hs.
    now apply Hraise, (poll_failed _ Ej Es Hs). }
  split.
  - intros w text w' t E.
    apply request_loop_inv in E as (pre & x & -> & Hp & Hx); [|discriminate].
    destruct x as [r|]; [|discriminate].
    destruct Hx as [u Hu]. apply poll_leave_inv in Hu as [Hrep Hout].
    exists pre, r. repeat split; auto.
  - intros w msg w' t E.
    apply request_loop_inv in E as (pre & x & -> & Hp & Hx); [|discriminate].
    destruct x as [r|]; [|discriminate].
    destruct Hx as [u Hu].
    apply poll_error_inv in Hu as (d & status & Ej & Es & Hst & ->).
    exists pre, r, d, status. repeat split; auto.
Qed.

End Loops.

(** ** The scenarios of the specification, run *)

Module Scenarios.

#[local] Existing Instance Demo.platform.

Example scenario_A_reply :
  outcome_of (chat Demo.question_A Demo.world_A)
  = Ret (VDict [("reply", VStr "A compartment groups resources.");
                ("tool_used", VBool false);
                ("generated_command", VStr EmptyString);
                ("missing_fields", VList [])]).
Proof. vm_compute. reflexivity. Qed.

Example scenario_B_reply :
  outcome_of (chat Demo.question_B Demo.world_B)
  = Ret (VDict [("reply", VStr "Run the command below.");
                ("tool_used", VBool true);
                ("generated_command", VStr "oci os bucket list --compartment-id X");
                ("missing_fields", VList [])]).
Proof. vm_compute. reflexivity. Qed.

Example scenario_C_reply :
  outcome_of (chat Demo.question_C Demo.world_C)
  = Ret (VDict [("reply", VStr "Which compartment?");
                ("tool_used", VBool true);
                ("generated_command", VStr EmptyString);
                ("missing_fields", VList [VStr "compartment_id"])]).
Proof. vm_compute. reflexivity. Qed.

Lemma tool_used_witness :
  exists out b,
    outcome_of (CHAT_GRAPH (State.initial Demo.question_C) Demo.world_C) = Ret out
    /\ command_field out "generated_command" = Some (VStr EmptyString)
    /\ command_field out "missing_fields" = Some (VList [VStr "compartment_id"])
    /\ b = true.
Proof.
  destruct (@tool_used_is_derived_from_final_state Demo.platform
              Demo.question_C Demo.world_C (rest (chat Demo.question_C Demo.world_C))
              (log (chat Demo.question_C Demo.world_C))
              (VDict [("reply", VStr "Which compartment?");
                      ("tool_used", VBool true);
                      ("generated_command", VStr EmptyString);
                      ("missing_fields", VList [VStr "compartment_id"])]))
    as (out & b & Eg & Ec & Eb & Hb & _).
  { vm_compute. reflexivity. }
  exists out, b.
  assert (Eout : outcome_of (CHAT_GRAPH (State.initial Demo.question_C) Demo.world_C) = Ret out)
    by (rewrite Eg; reflexivity).
  vm_compute in Eout. injection Eout as <-.
  repeat split. apply Hb. right. vm_compute. discriminate.
Defined.

Example scenario_D_sleeps :
  sleeps_of (log (run_replicate_model ROUTER_PROMPT Demo.question_A 120 float_0_2
                    (Demo.http 200 (VDict [("latest_version", VDict [("id", VStr "v1")])])
                     :: map Got Demo.limited_D ++ Demo.accepted_D
                     ++ [Got Demo.finished_job])%list))
  = [4; 6].
Proof. vm_compute. reflexivity. Qed.

Lemma branch_witness :
  next_node graph "router" Demo.state_quoted_flag = inr "command"
  /\ next_node graph "router"
       (State.set_route (VDict [("reason", VStr "no flag")]) (State.initial Demo.question_A))
     = inr "answer".
Proof.
  split.
  - apply (@branch_follows_truth_of_flag Demo.platform Demo.state_quoted_flag
             [("use_command_tool", VStr "false")] eq_refl).
    simpl. discriminate.
  - apply (@branch_follows_truth_of_flag Demo.platform
             (State.set_route (VDict [("reason", VStr "no flag")])
                (State.initial Demo.question_A))
             [("reason", VStr "no flag")] eq_refl).
    reflexivity.
Defined.

(** C2, as stated, fails on the state the router stores when its model
    quotes the flag: the field is the string [false], which is not the
    boolean true, and the step after the router is [command]. It fails
    again on the state the router stores when its model emits an array:
    the step after the router is neither [command] nor [answer]. *)
Lemma quoted_flag_takes_command_branch :
  outcome_of (router (State.initial Demo.question_A) Demo.world_quoted_flag)
    = Ret Demo.state_quoted_flag
  /\ State.route Demo.state_quoted_flag = Some (VDict [("use_command_tool", VStr "false")])
  /\ nodes_of (log (CHAT_GRAPH (State.initial Demo.question_A) Demo.world_quoted_flag))
     = ["router"; "command"; "answer"]
  /\ ~ (next_node graph "router" Demo.state_quoted_flag = inr "command"
        <-> Py.lookup "use_command_tool" [("use_command_tool", VStr "false")]
            = Some (VBool true))
  /\ outcome_of (router (State.initial Demo.question_A) Demo.world_router_array)
     = Ret (State.set_route (VList []) (State.initial Demo.question_A))
  /\ next_node graph "router" (State.set_route (VList []) (State.initial Demo.question_A))
     = inl AttributeError.
Proof.
  split; [vm_compute; reflexivity|].
  split; [reflexivity|].
  split; [vm_compute; reflexivity|].
  split; [|split; [vm_compute; reflexivity|reflexivity]].
  intros [Hcmd _]. specialize (Hcmd eq_refl). discriminate Hcmd.
Qed.


Lemma command_falls_back_witness :
  let fallback := VDict [("generated_command", VStr EmptyString);
                         ("missing_fields", VList []);
                         ("notes", VStr "Command output not valid JSON")] in
  let s2 := State.set_command fallback (State.initial Demo.question_B) in
  outcome_of (command (State.initial Demo.question_B) Demo.world_command_chatty)
  = Ret s2
  /\ State.command s2 = Some fallback
  /\ command_field s2 "generated_command" = Some (VStr EmptyString).
Proof.
  intros fallback s2.
  destruct (@command_falls_back_on_malformed_output Demo.platform
              (State.initial Demo.question_B) Demo.question_B Demo.chatty
              Demo.world_command_chatty
              (Demo.model_says ["Please tell me more."])
              (log (run_replicate_model COMMAND_PROMPT Demo.question_B 200 float_0_2
                      Demo.world_command_chatty))
              0%nat eq_refl) as (E & Ec & Eg & _).
  - vm_compute. reflexivity.
  - vm_compute. reflexivity.
  - split; [rewrite E; reflexivity|]. split; [exact Ec|exact Eg].
Defined.

Lemma router_stores_non_object_witness :
  outcome_of (CHAT_GRAPH (State.initial Demo.question_A) Demo.world_router_array)
  = Raise AttributeError.
Proof.
  destruct (@router_stores_non_object_and_branch_raises Demo.platform
              (State.initial Demo.question_A) Demo.question_A "[]" (VList [])
              Demo.world_router_array []
              (log (run_replicate_model ROUTER_PROMPT Demo.question_A 120 float_0_2
                      Demo.world_router_array))
              eq_refl) as (_ & _ & _ & E).
  - vm_compute. reflexivity.
  - vm_compute. reflexivity.
  - reflexivity.
  - rewrite E. reflexivity.
Defined.

Lemma no_command_witness :
  nodes_of (log (CHAT_GRAPH (State.initial Demo.question_A) Demo.world_A))
  = ["router"; "answer"].
Proof.
  eapply (@no_command_when_flag_is_false Demo.platform Demo.question_A Demo.world_A).
  - vm_compute. reflexivity.
  - reflexivity.
  - reflexivity.
Defined.

Lemma answer_runs_once_witness :
  exists out,
    outcome_of (CHAT_GRAPH (State.initial Demo.question_B) Demo.world_B) = Ret out
    /\ count_occ string_dec
         (nodes_of (log (CHAT_GRAPH (State.initial Demo.question_B) Demo.world_B)))
         "answer" = 1%nat
    /\ count_occ string_dec
         (writes_of (log (CHAT_GRAPH (State.initial Demo.question_B) Demo.world_B)))
         "reply" = 1%nat.
Proof.
  assert (E : exists out,
            CHAT_GRAPH (State.initial Demo.question_B) Demo.world_B
            = Result (Ret out)
                (rest (CHAT_GRAPH (State.initial Demo.question_B) Demo.world_B))
                (log (CHAT_GRAPH (State.initial Demo.question_B) Demo.world_B)))
    by (eexists; vm_compute; reflexivity).
  destruct E as [out E]. exists out.
  destruct (answer_runs_exactly_once E) as (Hn & Hw & _).
  split; [rewrite E; reflexivity|]. split; assumption.
Defined.

Lemma answer_prompt_witness :
  let c := VDict [("generated_command", VStr "oci os bucket list --compartment-id X");
                  ("missing_fields", VList []); ("notes", VStr EmptyString)] in
  Forall (fun b => exists vid,
            b = prediction_request vid SYSTEM_PROMPT
                  (Demo.question_B ++ nl ++ "[CommandTool]" ++ nl ++ Demo.dumps c ++ nl)
                  300 float_0_3)
    (posts_of (log (answer (State.set_command c (State.initial Demo.question_B))
                      (Demo.model_says ["Run the command below."])))).
Proof.
  intros c.
  apply (@answer_prompt_carries_command_record Demo.platform
           (State.set_command c (State.initial Demo.question_B)) Demo.question_B
           (Demo.model_says ["Run the command below."]) eq_refl).
Defined.


Lemma polling_witness :
  poll (VStr "p1") (map Got Demo.waiting_job ++ [Got Demo.finished_job])%list
  = Result (Ret "Hello, world") []
      (log (poll (VStr "p1") (map Got Demo.waiting_job ++ [Got Demo.finished_job])%list))
  /\ sleeps_of (log (poll (VStr "p1")
                       (map Got Demo.waiting_job ++ [Got Demo.finished_job])%list))
     = [1; 1; 1].
Proof.
  destruct (@polling_outcomes Demo.platform (VStr "p1") Demo.waiting_job)
    as (_ & _ & E & _).
  - repeat constructor;
      (eexists; split; [eexists; split; reflexivity|repeat split; reflexivity]).
  - rewrite (E Demo.finished_job [] ["Hello"; ", "; "world"]).
    + split; vm_compute; reflexivity.
    + eexists. split; reflexivity.
    + reflexivity.
Defined.


(** Two polls the sentence of the specification gets wrong. A job that
    succeeded with the output [["a", 1]] makes the loop raise a [TypeError]
    instead of returning; and a job that was canceled, whose payload holds
    no id, gives the same error whatever the id polled: the message is made
    of the status and the payload only. *)
Lemma mixed_output_raises_and_error_has_no_job_id :
  let succeeded := Demo.http 200 (VDict [("status", VStr "succeeded");
                                         ("output", VList [VStr "a"; VInt 1])]) in
  let canceled := Demo.http 200 (VDict [("status", VStr "canceled")]) in
  outcome_of (poll (VStr "p1") [succeeded]) = Raise TypeError
  /\ outcome_of (poll (VStr "p1") [canceled])
     = Raise (RuntimeError "Replicate prediction canceled: {'status': 'canceled'}")
  /\ outcome_of (poll (VStr "some-other-job") [canceled])
     = outcome_of (poll (VStr "p1") [canceled]).
Proof. vm_compute. repeat split; reflexivity. Qed.

(** Outside what the provider sends: a command record that is not an
    object. *)
Example non_object_command_raises :
  outcome_of (chat Demo.question_B
                (Demo.model_says [Demo.router_yes]
                 ++ Demo.model_says ["["; "]"]
                 ++ Demo.model_says ["Run the command below."])%list)
  = Raise AttributeError.
Proof. vm_compute. reflexivity. Qed.

End Scenarios.

(** * Further properties *)

(** ** Escaping for the page *)

Lemma append_assoc (a b c : string) : (a ++ b) ++ c = a ++ b ++ c.
Proof. induction a as [|x a IH]; simpl; [reflexivity|now rewrite IH]. Qed.

Lemma in_chars_app (c : ascii) (a b : string) :
  In c (list_ascii_of_string (a ++ b)) <->
  In c (list_ascii_of_string a) \/ In c (list_ascii_of_string b).
Proof.
  induction a as [|x a IH]; simpl; [tauto|]. rewrite IH. tauto.
Qed.

(** What [entity] answers, case by case. *)
Lemma entity_cases (c : ascii) :
  (c = "&"%char /\ entity c = Some "&amp;")
  \/ (c = "<"%char /\ entity c = Some "&lt;")
  \/ (c = ">"%char /\ entity c = Some "&gt;")
  \/ (c = "034"%char /\ entity c = Some "&quot;")
  \/ (c = "'"%char /\ entity c = Some "&#39;")
  \/ (entity c = None /\ c <> "&"%char /\ ~ In c markup).
Proof.
  unfold entity.
  destruct (Ascii.eqb_spec c "&"); [subst; auto|].
  destruct (Ascii.eqb_spec c "<"); [subst; auto 6|].
  destruct (Ascii.eqb_spec c ">"); [subst; auto 6|].
  destruct (Ascii.eqb_spec c "034"); [subst; auto 6|].
  destruct (Ascii.eqb_spec c "'"); [subst; auto 8|].
  do 5 right. repeat split; auto. simpl. intuition congruence.
Qed.

(** X1. The escaped text holds none of the characters [<], [>], double
    quote and single quote, whatever the input. *)
Theorem escapeHtml_has_no_markup (s : string) (c : ascii) :
  In c markup -> ~ In c (list_ascii_of_string (escapeHtml s)).
Proof.
  intros Hc. induction s as [|x s IH]; simpl; [tauto|].
  destruct (entity_cases x) as [[-> ->]|[[-> ->]|[[-> ->]|[[-> ->]|[[-> ->]|[-> [_ Hx]]]]]]];
    simpl; intros Hin.
  6: { destruct Hin as [<-|Hin]; [contradiction|now apply IH]. }
  all: repeat (destruct Hin as [Hin|Hin];
               [subst c; simpl in Hc; intuition discriminate|]);
       now apply IH.
Qed.

Ltac entity_split c :=
  destruct (entity_cases c)
    as [[-> ->]|[[-> ->]|[[-> ->]|[[-> ->]|[[-> ->]|[-> [? ?]]]]]]].

(** X2. Escaping loses nothing: two texts with the same escaped form are
    the same text. *)
Theorem escapeHtml_injective (s t : string) :
  escapeHtml s = escapeHtml t -> s = t.
Proof.
  revert t. induction s as [|x s IH]; intros [|y t]; simpl.
  - reflexivity.
  - entity_split y; discriminate.
  - entity_split x; discriminate.
  - entity_split x; entity_split y; simpl; intros E;
      try discriminate E;
      try (injection E as E; f_equal; now apply IH);
      try (injection E as E1 E; congruence).
    injection E as -> E. f_equal. now apply IH.
Qed.

(** X3. Escaping goes through concatenation: the escaped form of a joined
    text is the escaped forms joined. *)
Theorem escapeHtml_app (s t : string) :
  escapeHtml (s ++ t) = escapeHtml s ++ escapeHtml t.
Proof.
  induction s as [|x s IH]; simpl; [reflexivity|].
  rewrite IH. destruct (entity x); [|reflexivity].
  now rewrite append_assoc.
Qed.

Lemma escapeHtml_length (s : string) :
  (String.length s <= String.length (escapeHtml s))%nat.
Proof.
  induction s as [|x s IH]; simpl; [lia|].
  entity_split x; simpl; lia.
Qed.

(** X4. Escaping changes a text exactly when the text holds one of the
    five characters of the class. *)
Theorem escapeHtml_fixes_plain_text (s : string) :
  escapeHtml s = s <->
  (forall c, In c (list_ascii_of_string s) -> entity c = None).
Proof.
  induction s as [|x s IH]; simpl.
  - split; [intros _ c []|reflexivity].
  - split.
    + intros E c Hc.
      assert (Hx : entity x = None /\ escapeHtml s = s).
      { pose proof (escapeHtml_length s) as Hl.
        revert E. entity_split x; simpl; intros E; try discriminate E.
        - injection E as E. rewrite <- E in Hl at 1. simpl in Hl. lia.
        - injection E as E. now split. }
      destruct Hx as [Hx Hs]. destruct Hc as [<-|Hc]; [exact Hx|].
      now apply IH.
    + intros Hall. rewrite (Hall x (or_introl eq_refl)). f_equal.
      apply IH. intros c Hc. apply Hall. now right.
Qed.

(** ** Every event of a request *)

Lemma prefix_app (s t : string) : String.prefix s (s ++ t) = true.
Proof.
  induction s as [|c s IH]; simpl; [now destruct t|].
  destruct (ascii_dec c c); [exact IH|congruence].
Qed.

Section EveryEvent.
Context `{Platform}.

Variable Q : event -> Prop.
Hypothesis Q_node : forall n, Q (EvNode n).
Hypothesis Q_write : forall k, Q (EvWrite k).
Hypothesis Q_lookup : Q (EvGet models_url _headers).
Hypothesis Q_post : forall vid sp p mt temp, Q (post_of vid sp p mt temp).
Hypothesis Q_get : forall pid, Q (get_of pid).
Hypothesis Q_create : forall r, Forall Q (fst (create_prediction r)).
Hypothesis Q_poll : forall r, Forall Q (fst (poll_prediction r)).

Lemma lookup_version_every (w : world) : Forall Q (log (lookup_version w)).
Proof.
  unfold lookup_version. rewrite bind_run.
  destruct w as [|[r|] w]; simpl; try (repeat constructor; exact Q_lookup).
  destruct (raise_for_status r) as [e|[]]; simpl; [repeat constructor; exact Q_lookup|].
  destruct (response_json r) as [e|j]; simpl; [repeat constructor; exact Q_lookup|].
  destruct (Py.getitem j "latest_version") as [e|lv]; simpl;
    [repeat constructor; exact Q_lookup|].
  destruct (Py.getitem lv "id"); simpl; repeat constructor; exact Q_lookup.
Qed.

Lemma model_call_every (system_prompt prompt : string) (max_tokens : Z)
    (temperature : pyfloat) (w : world) :
  Forall Q (log (run_replicate_model system_prompt prompt max_tokens temperature w)).
Proof.
  destruct TOKEN as [|c tok] eqn:Etok.
  - unfold run_replicate_model. rewrite Etok. constructor.
  - rewrite run_replicate_model_stages by congruence.
    pose proof (lookup_version_every w) as Hv.
    rewrite bind_run.
    destruct (lookup_version w) as [[vid| e |] w1 t1]; simpl in Hv; try exact Hv.
    rewrite log_after. apply Forall_app; split; [exact Hv|].
    rewrite bind_run.
    assert (Hs : Forall Q (log (submit vid system_prompt prompt max_tokens temperature w1)))
      by (apply request_loop_log; [apply Q_post|exact Q_create]).
    destruct (submit vid system_prompt prompt max_tokens temperature w1)
      as [[pid| e |] w2 t2]; simpl in Hs; try exact Hs.
    rewrite log_after. apply Forall_app; split; [exact Hs|].
    apply request_loop_log; [apply Q_get|exact Q_poll].
Qed.

Lemma router_every (state : State.t) (w : world) : Forall Q (log (router state w)).
Proof.
  rewrite router_run. destruct (State.user_input state) as [q|]; [|constructor].
  pose proof (model_call_every ROUTER_PROMPT q 120 float_0_2 w) as Hc.
  destruct (run_replicate_model ROUTER_PROMPT q 120 float_0_2 w) as [[raw| e |] w1 t1];
    simpl in *; try exact Hc.
  apply Forall_app. split; [exact Hc|]. repeat constructor. apply Q_write.
Qed.

Lemma command_every (state : State.t) (w : world) : Forall Q (log (command state w)).
Proof.
  rewrite command_run. destruct (State.user_input state) as [q|]; [|constructor].
  pose proof (model_call_every COMMAND_PROMPT q 200 float_0_2 w) as Hc.
  destruct (run_replicate_model COMMAND_PROMPT q 200 float_0_2 w) as [[raw| e |] w1 t1];
    simpl in *; try exact Hc.
  apply Forall_app. split; [exact Hc|]. repeat constructor. apply Q_write.
Qed.

Lemma answer_every (state : State.t) (w : world) : Forall Q (log (answer state w)).
Proof.
  rewrite answer_run. destruct (State.user_input state) as [q|]; [|constructor].
  pose proof (model_call_every SYSTEM_PROMPT (q ++ tool_info state) 300 float_0_3 w) as Hc.
  destruct (run_replicate_model SYSTEM_PROMPT (q ++ tool_info state) 300 float_0_3 w)
    as [[raw| e |] w1 t1]; simpl in *; try exact Hc.
  apply Forall_app. split; [exact Hc|]. repeat constructor. apply Q_write.
Qed.

Lemma graph_every (state : State.t) (w : world) :
  Forall Q (log (CHAT_GRAPH state w)).
Proof.
  rewrite CHAT_GRAPH_run, log_after. constructor; [apply Q_node|].
  pose proof (router_every state w) as Hr.
  destruct (router state w) as [[s1| e |] w1 t1]; simpl in Hr; try exact Hr.
  pose proof (route_decision_cases s1) as Hc.
  destruct (route_decision s1) as [e|target]; [exact Hr|].
  rewrite log_after. apply Forall_app. split; [exact Hr|].
  destruct Hc as [-> | ->].
  - rewrite run_from_command, log_after. constructor; [apply Q_node|].
    pose proof (command_every s1 w1) as Hcm.
    destruct (command s1 w1) as [[s2| e |] w2 t2]; simpl in Hcm; try exact Hcm.
    rewrite log_after. apply Forall_app. split.
    + apply Forall_app. split; [exact Hcm|]. repeat constructor. apply Q_node.
    + apply answer_every.
  - rewrite run_from_answer, log_after. constructor; [apply Q_node|].
    apply answer_every.
Qed.

Lemma chat_log (q : string) (w : world) :
  log (chat q w) = log (CHAT_GRAPH (State.initial q) w).
Proof.
  unfold chat. rewrite bind_run.
  destruct (CHAT_GRAPH (State.initial q) w) as [[out| e |] w1 t1]; try reflexivity.
  rewrite local_pure_run. destruct (chat_reply out); simpl; now rewrite app_nil_r.
Qed.

Lemma chat_every (q : string) (w : world) : Forall Q (log (chat q w)).
Proof. rewrite chat_log. apply graph_every. Qed.

End EveryEvent.

Section Traffic.
Context `{Platform}.

(** X5. Every request of a chat goes to an address under
    [REPLICATE_API_BASE] and carries the headers of [_headers]: the token
    is sent nowhere else. *)
Theorem requests_go_to_replicate (q : string) (w : world) :
  Forall addressed (log (chat q w)).
Proof.
  assert (Hsleep : forall e, sleep_event e -> addressed e)
    by (intros []; simpl; tauto).
  apply chat_every; try (intros; exact I).
  - split; [apply prefix_app|reflexivity].
  - intros. split; [apply prefix_app|reflexivity].
  - intros. split; [apply prefix_app|reflexivity].
  - intros r. eapply Forall_impl; [exact Hsleep|apply create_prediction_events].
  - intros r. eapply Forall_impl; [exact Hsleep|apply poll_prediction_events].
Qed.

End Traffic.

(** ** Errors and the plain path of one model call *)

Section OneCall.
Context `{Platform}.

Lemma raise_for_status_success (r : Response) :
  is_success (status_code r) = true -> raise_for_status r = inr tt.
Proof. unfold raise_for_status, is_success. now intros ->. Qed.

Lemma raise_for_status_error (r : Response) :
  is_success (status_code r) = false ->
  raise_for_status r = inl (HTTPStatusError (status_code r)).
Proof. unfold raise_for_status, is_success. now intros ->. Qed.

(** X6. Without a token every chat fails with the [RuntimeError] of the
    token check as soon as the router is entered: no request is made and
    no reply of the network is consumed. *)
Theorem no_token_no_request (q : string) (w : world) :
  TOKEN = EmptyString ->
  chat q w =
  Result (Raise (RuntimeError
            "REPLICATE_API_TOKEN is empty. Please set it in .env or environment variables."))
    w [EvNode "router"].
Proof.
  intros Htok. unfold chat. rewrite bind_run, CHAT_GRAPH_run, router_run. simpl.
  unfold run_replicate_model. rewrite Htok. reflexivity.
Qed.

(** X7. A version lookup answered with a status outside 200..299, a 429
    like any other, ends the call with [HTTPStatusError] after that one
    request: the lookup is never retried, nothing is posted, nothing
    slept. *)
Theorem lookup_error_is_not_retried
    (system_prompt prompt : string) (max_tokens : Z) (temperature : pyfloat)
    (r : Response) (w : world) :
  TOKEN <> EmptyString ->
  is_success (status_code r) = false ->
  run_replicate_model system_prompt prompt max_tokens temperature (Got r :: w)
  = Result (Raise (HTTPStatusError (status_code r))) w [EvGet models_url _headers].
Proof.
  intros Htok Hs. rewrite run_replicate_model_stages by exact Htok.
  rewrite bind_run. unfold lookup_version. rewrite bind_run. simpl.
  rewrite (raise_for_status_error _ Hs). reflexivity.
Qed.

(** X8. A submission answered with an error status other than 429 ends the
    call with [HTTPStatusError] at once, after the sleeps of the 429s before
    it: only the rate limit is retried. *)
Theorem submission_error_is_not_retried
    (vid : value) (system_prompt prompt : string) (max_tokens : Z)
    (temperature : pyfloat) (limited : list Response) (r : Response) (rest : world) :
  Forall (fun r => status_code r = 429
                   /\ 0 <= retry_after_of r + 1 <= sleep_limit) limited ->
  status_code r <> 429 ->
  is_success (status_code r) = false ->
  let req := post_of vid system_prompt prompt max_tokens temperature in
  submit vid system_prompt prompt max_tokens temperature
    (map Got limited ++ Got r :: rest)%list
  = Result (Raise (HTTPStatusError (status_code r))) rest
      (flat_map (fun r => [req; EvSleep (retry_after_of r + 1)]) limited ++ [req])%list.
Proof.
  intros Hlim H429 Hs req. unfold submit.
  change (EvPost (REPLICATE_API_BASE ++ "/predictions") _headers
            (prediction_request vid system_prompt prompt max_tokens temperature))
    with req.
  rewrite (retries_after_429 req (Got r :: rest) Hlim). simpl.
  unfold create_prediction.
  destruct (Z.eqb_spec (status_code r) 429); [contradiction|]. simpl.
  rewrite (raise_for_status_error _ Hs). reflexivity.
Qed.

Lemma posts_of_retries (A : Type) (url : string) (headers : list (string * string))
    (body : value) (f : A -> Z) (l : list A) :
  posts_of (flat_map (fun r => [EvPost url headers body; EvSleep (f r)]) l)
  = map (fun _ => body) l.
Proof. induction l as [|x l IH]; simpl; [reflexivity|now rewrite <- IH]. Qed.

Lemma posts_of_polls (A : Type) (url : string) (headers : list (string * string))
    (l : list A) :
  posts_of (flat_map (fun _ => [EvGet url headers; EvSleep 1]) l) = [].
Proof. induction l as [|x l IH]; simpl; [reflexivity|exact IH]. Qed.

(** The fields of the body the client posts, read back by key. *)
Lemma prediction_request_fields (vid : value) (system_prompt prompt : string)
    (max_tokens : Z) (temperature : pyfloat) :
  let body := prediction_request vid system_prompt prompt max_tokens temperature in
  Py.getitem body "version" = inr vid
  /\ exists input,
       Py.getitem body "input" = inr input
       /\ Py.getitem input "system_prompt" = inr (VStr system_prompt)
       /\ Py.getitem input "prompt" = inr (VStr (prompt ++ nl))
       /\ Py.getitem input "prompt_template" = inr (VStr LLAMA3_TEMPLATE)
       /\ Py.getitem input "max_new_tokens" = inr (VInt max_tokens)
       /\ Py.getitem input "temperature" = inr (VFloat temperature)
       /\ Py.getitem input "stop_sequences" = inr (VStr "<|end_of_text|>,<|eot_id|>").
Proof.
  split; [reflexivity|].
  eexists. split; [reflexivity|]. repeat split; reflexivity.
Qed.

(** X9. The plain path of a call. When the lookup finds a version, the
    submission is accepted after some 429s, and the job succeeds after
    some polls that report another status, the call returns the fragments
    of the output joined, leaves the replies after the last poll untouched,
    and has made, in this order: the lookup, one post per 429 each followed
    by its sleep, the accepted post, one poll per waiting status each
    followed by a sleep of one second, and the last poll. The polls are
    addressed by the id the accepted submission returned, printed as text,
    and every post, one more than there were 429s, carries under its
    [version] key the version the lookup found and under its [input] key
    the prompts, the token budget and the temperature of the call. *)
Theorem model_call_plain_path
    (system_prompt prompt : string) (max_tokens : Z) (temperature : pyfloat)
    (found : Response) (dv dl : list (string * value)) (vid : value)
    (limited : list Response)
    (accepted : Response) (da : list (string * value)) (pid : value)
    (waiting : list Response) (final : Response) (fragments : list string)
    (rest : world) :
  TOKEN <> EmptyString ->
  is_success (status_code found) = true ->
  json found = Some (VDict dv) ->
  Py.lookup "latest_version" dv = Some (VDict dl) ->
  Py.lookup "id" dl = Some vid ->
  Forall (fun r => status_code r = 429
                   /\ 0 <= retry_after_of r + 1 <= sleep_limit) limited ->
  is_success (status_code accepted) = true ->
  json accepted = Some (VDict da) ->
  Py.lookup "id" da = Some pid ->
  Forall pending waiting ->
  reports final (VStr "succeeded") ->
  output_of final = Some (VList (map VStr fragments)) ->
  let post := post_of vid system_prompt prompt max_tokens temperature in
  let get := get_of pid in
  let run := run_replicate_model system_prompt prompt max_tokens temperature
               (Got found :: map Got limited ++ Got accepted
                  :: map Got waiting ++ Got final :: rest)%list in
  run
  = Result (Ret (String.concat EmptyString fragments)) rest
      ([EvGet models_url _headers]
       ++ flat_map (fun r => [post; EvSleep (retry_after_of r + 1)]) limited
       ++ [post]
       ++ flat_map (fun _ : Response => [get; EvSleep 1]) waiting
       ++ [get])%list
  /\ List.length (posts_of (log run)) = S (List.length limited)
  /\ Forall (fun body =>
               Py.getitem body "version" = inr vid
               /\ exists input,
                    Py.getitem body "input" = inr input
                    /\ Py.getitem input "system_prompt" = inr (VStr system_prompt)
                    /\ Py.getitem input "prompt" = inr (VStr (prompt ++ nl))
                    /\ Py.getitem input "max_new_tokens" = inr (VInt max_tokens)
                    /\ Py.getitem input "temperature" = inr (VFloat temperature))
       (posts_of (log run))
  /\ get = EvGet (REPLICATE_API_BASE ++ "/predictions/"
                  ++ match pid with VStr s => s | _ => py_repr pid end) _headers
  /\ exists body, post = EvPost (REPLICATE_API_BASE ++ "/predictions") _headers body.
Proof.
  intros Htok Hf Ejf Elv Eid Hlim Ha Eja Epid Hwait Hrep Hout post get run.
  assert (Erun : run
                 = Result (Ret (String.concat EmptyString fragments)) rest
                     ([EvGet models_url _headers]
                      ++ flat_map (fun r => [post; EvSleep (retry_after_of r + 1)]) limited
                      ++ [post]
                      ++ flat_map (fun _ : Response => [get; EvSleep 1]) waiting
                      ++ [get])%list).
  { unfold run.
    rewrite run_replicate_model_stages by exact Htok.
    rewrite bind_run.
    assert (Ev : lookup_version
                   (Got found :: map Got limited ++ Got accepted
                      :: map Got waiting ++ Got final :: rest)%list
                 = Result (Ret vid)
                     (map Got limited ++ Got accepted
                        :: map Got waiting ++ Got final :: rest)%list
                     [EvGet models_url _headers]).
    { unfold lookup_version. rewrite bind_run. simpl.
      rewrite (raise_for_status_success _ Hf). simpl.
      unfold response_json. rewrite Ejf. simpl. rewrite Elv. simpl. rewrite Eid.
      reflexivity. }
    rewrite Ev, bind_run.
    assert (Es : submit vid system_prompt prompt max_tokens temperature
                   (map Got limited ++ Got accepted
                      :: map Got waiting ++ Got final :: rest)%list
                 = Result (Ret pid) (map Got waiting ++ Got final :: rest)%list
                     (flat_map (fun r => [post; EvSleep (retry_after_of r + 1)]) limited
                      ++ [post])%list).
    { unfold submit.
      change (EvPost (REPLICATE_API_BASE ++ "/predictions") _headers
                (prediction_request vid system_prompt prompt max_tokens temperature))
        with post.
      rewrite (retries_after_429 post _ Hlim). simpl.
      unfold create_prediction.
      assert (H429 : (status_code accepted =? 429) = false).
      { unfold is_success in Ha. apply andb_true_iff in Ha as [_ Hle].
        apply Z.leb_le in Hle. apply Z.eqb_neq. lia. }
      rewrite H429. simpl. rewrite (raise_for_status_success _ Ha). simpl.
      unfold response_json. rewrite Eja. simpl. rewrite Epid. reflexivity. }
    rewrite Es.
    assert (Ep : poll pid (map Got waiting ++ Got final :: rest)%list
                 = Result (Ret (String.concat EmptyString fragments)) rest
                     (flat_map (fun _ : Response => [get; EvSleep 1]) waiting
                      ++ [get])%list).
    { unfold poll.
      change (EvGet (REPLICATE_API_BASE ++ "/predictions/" ++ str pid) _headers) with get.
      rewrite (polls_while_pending get _ Hwait). simpl.
      rewrite (poll_succeeded Hrep), Hout, join_fragments. reflexivity. }
    rewrite Ep. unfold after. simpl. rewrite <- !app_assoc. reflexivity. }
  assert (Eposts : posts_of (log run)
                   = (map (fun _ => prediction_request vid system_prompt prompt
                                      max_tokens temperature) limited
                      ++ [prediction_request vid system_prompt prompt
                            max_tokens temperature])%list).
  { rewrite Erun. cbn [log]. rewrite !posts_of_app.
    unfold post, post_of, get, get_of.
    rewrite posts_of_retries, posts_of_polls. reflexivity. }
  split; [exact Erun|].
  split.
  { rewrite Eposts, length_app, length_map. simpl. lia. }
  split.
  { rewrite Eposts.
    pose proof (prediction_request_fields vid system_prompt prompt max_tokens temperature)
      as (Hv & input & Hi & Hsp & Hp & _ & Hm & Ht & _).
    assert (Hone : Py.getitem (prediction_request vid system_prompt prompt
                                 max_tokens temperature) "version" = inr vid
                   /\ exists input,
                        Py.getitem (prediction_request vid system_prompt prompt
                                      max_tokens temperature) "input" = inr input
                        /\ Py.getitem input "system_prompt" = inr (VStr system_prompt)
                        /\ Py.getitem input "prompt" = inr (VStr (prompt ++ nl))
                        /\ Py.getitem input "max_new_tokens" = inr (VInt max_tokens)
                        /\ Py.getitem input "temperature" = inr (VFloat temperature)).
    { split; [exact Hv|]. exists input. repeat split; assumption. }
    apply Forall_app. split.
    - apply Forall_forall. intros body Hin.
      apply in_map_iff in Hin as (r & <- & _). exact Hone.
    - constructor; [exact Hone|constructor]. }
  split.
  { unfold get, get_of, str. now destruct pid. }
  eexists. reflexivity.
Qed.

End OneCall.

(** ** What the polling loop does not look at *)

Section PollingEdges.
Context `{Platform}.

Lemma poll_prediction_body (r r' : Response) :
  json r = json r' -> poll_prediction r = poll_prediction r'.
Proof. intros E. unfold poll_prediction, response_json. now rewrite E. Qed.

(** X10. The polling loop never looks at the status code of a reply: two
    sequences of poll replies with the same bodies, whatever their status
    codes, end the loop the same way after the same requests and sleeps. A
    poll answered with an error status is treated by its body alone. *)
Theorem polling_ignores_status_code (pid : value) (w w' : world) :
  Forall2 same_body w w' ->
  outcome_of (poll pid w) = outcome_of (poll pid w')
  /\ log (poll pid w) = log (poll pid w')
  /\ List.length (rest (poll pid w)) = List.length (rest (poll pid w')).
Proof.
  unfold poll.
  generalize (EvGet (REPLICATE_API_BASE ++ "/predictions/" ++ str pid) _headers).
  intros req. induction 1 as [|x y w w' Hxy Hww IH]; simpl; [now repeat split|].
  destruct x as [r|], y as [r'|]; simpl in Hxy; try contradiction.
  - rewrite (poll_prediction_body _ _ Hxy).
    destruct (poll_prediction r') as [t [e|[a|]]]; simpl.
    + repeat split. exact (Forall2_length Hww).
    + repeat split. exact (Forall2_length Hww).
    + destruct IH as (Ho & Hl & Hr). repeat split; auto. now rewrite Hl.
  - repeat split. exact (Forall2_length Hww).
Qed.

(** X11. A poll answered with a JSON object that has no status field, as the
    body of a provider error has, ends the call with [KeyError] on that
    key, whatever the status code of the reply. *)
Theorem poll_without_status_raises_key_error
    (pid : value) (waiting : list Response) (r : Response)
    (d : list (string * value)) (rest : world) :
  Forall pending waiting ->
  json r = Some (VDict d) ->
  Py.lookup "status" d = None ->
  poll pid (map Got waiting ++ Got r :: rest)%list
  = Result (Raise (KeyError "status")) rest
      (flat_map (fun _ : Response => [get_of pid; EvSleep 1]) waiting ++ [get_of pid])%list.
Proof.
  intros Hw Ej Es. unfold poll.
  change (EvGet (REPLICATE_API_BASE ++ "/predictions/" ++ str pid) _headers)
    with (get_of pid).
  rewrite (polls_while_pending (get_of pid) _ Hw). simpl.
  unfold poll_prediction, response_json. rewrite Ej. simpl. rewrite Es. reflexivity.
Qed.

End PollingEdges.

(** ** Errors of the client inside the graph *)

Section Propagation.
Context `{Platform}.

(** X12. The nodes catch nothing but the decoding: when the model call of a
    node raises, the node raises the same exception without assigning its
    key, and the run ends there with that exception. *)
Theorem client_error_ends_the_run (state : State.t) (q : string) :
  State.user_input state = Some q ->
  (forall w e w1 t1,
     run_replicate_model ROUTER_PROMPT q 120 float_0_2 w = Result (Raise e) w1 t1 ->
     router state w = Result (Raise e) w1 t1
     /\ CHAT_GRAPH state w = Result (Raise e) w1 (EvNode "router" :: t1))
  /\ (forall w e w1 t1 limit,
        run_replicate_model COMMAND_PROMPT q 200 float_0_2 w = Result (Raise e) w1 t1 ->
        command state w = Result (Raise e) w1 t1
        /\ run_from graph (S (S limit)) "command" state w
           = Result (Raise e) w1 (EvNode "command" :: t1))
  /\ (forall w e w1 t1 limit,
        run_replicate_model SYSTEM_PROMPT (q ++ tool_info state) 300 float_0_3 w
          = Result (Raise e) w1 t1 ->
        answer state w = Result (Raise e) w1 t1
        /\ run_from graph (S limit) "answer" state w
           = Result (Raise e) w1 (EvNode "answer" :: t1)).
Proof.
  intros Hq. split; [|split].
  - intros w e w1 t1 E. split.
    + rewrite router_run, Hq, E. reflexivity.
    + rewrite CHAT_GRAPH_run, router_run, Hq, E. reflexivity.
  - intros w e w1 t1 limit E. split.
    + rewrite command_run, Hq, E. reflexivity.
    + rewrite run_from_command, command_run, Hq, E. reflexivity.
  - intros w e w1 t1 limit E. split.
    + rewrite answer_run, Hq, E. reflexivity.
    + rewrite run_from_answer, answer_run, Hq, E. reflexivity.
Qed.

End Propagation.

(** ** Finished runs, part by part *)

Section FinishedRuns.
Context `{Platform}.

Lemma router_returned (state s1 : State.t) (w w1 : world) (t1 : list event) :
  router state w = Result (Ret s1) w1 t1 ->
  exists v c1,
    returned_call c1 /\ t1 = (c1 ++ [EvWrite "route"])%list
    /\ s1 = State.set_route v state.
Proof.
  rewrite router_run. destruct (State.user_input state) as [q|]; [|discriminate].
  destruct (run_replicate_model ROUTER_PROMPT q 120 float_0_2 w)
    as [[raw| e |] w0 t0] eqn:E; try discriminate.
  intros [= <- _ <-]. do 2 eexists. split; [|split; reflexivity].
  now exists ROUTER_PROMPT, q, 120, float_0_2, w, w0, raw.
Qed.

Lemma command_returned (state s2 : State.t) (w w2 : world) (t2 : list event) :
  command state w = Result (Ret s2) w2 t2 ->
  exists c c2,
    returned_call c2 /\ t2 = (c2 ++ [EvWrite "command"])%list
    /\ s2 = State.set_command c state.
Proof.
  rewrite command_run. destruct (State.user_input state) as [q|]; [|discriminate].
  destruct (run_replicate_model COMMAND_PROMPT q 200 float_0_2 w)
    as [[raw| e |] w0 t0] eqn:E; try discriminate.
  intros [= <- _ <-]. do 2 eexists. split; [|split; reflexivity].
  now exists COMMAND_PROMPT, q, 200, float_0_2, w, w0, raw.
Qed.

Lemma answer_returned (state out : State.t) (w w' : world) (t : list event) :
  answer state w = Result (Ret out) w' t ->
  exists r c3,
    returned_call c3 /\ t = (c3 ++ [EvWrite "reply"])%list
    /\ out = State.set_reply r state.
Proof.
  rewrite answer_run. destruct (State.user_input state) as [q|]; [|discriminate].
  destruct (run_replicate_model SYSTEM_PROMPT (q ++ tool_info state) 300 float_0_3 w)
    as [[raw| e |] w0 t0] eqn:E; try discriminate.
  intros [= <- _ <-]. do 2 eexists. split; [|split; reflexivity].
  now exists SYSTEM_PROMPT, (q ++ tool_info state), 300, float_0_3, w, w0, raw.
Qed.

(** A finished run is one of two sequences of returned model calls between
    the node and assignment marks. *)
Lemma finished_run_parts (state out : State.t) (w w' : world) (t : list event) :
  CHAT_GRAPH state w = Result (Ret out) w' t ->
  exists v r c1 c3,
    returned_call c1 /\ returned_call c3
    /\ ((t = (EvNode "router" :: c1 ++ [EvWrite "route"; EvNode "answer"]
                ++ c3 ++ [EvWrite "reply"])%list
         /\ out = State.set_reply r (State.set_route v state)
         /\ route_decision (State.set_route v state) = inr "answer")
        \/ (exists c c2,
              returned_call c2
              /\ t = (EvNode "router" :: c1 ++ [EvWrite "route"; EvNode "command"]
                        ++ c2 ++ [EvWrite "command"; EvNode "answer"]
                        ++ c3 ++ [EvWrite "reply"])%list
              /\ out = State.set_reply r (State.set_command c (State.set_route v state))
              /\ route_decision (State.set_route v state) = inr "command")).
Proof.
  intros E. rewrite CHAT_GRAPH_run in E.
  destruct (router state w) as [[s1| e |] w1 t1] eqn:Er; try discriminate.
  apply router_returned in Er as (v & c1 & Hc1 & -> & ->).
  pose proof (route_decision_cases (State.set_route v state)) as Hc.
  destruct (route_decision (State.set_route v state)) as [e|target] eqn:Ed;
    [discriminate|].
  destruct Hc as [-> | ->].
  - rewrite run_from_command in E.
    destruct (command (State.set_route v state) w1) as [[s2| e |] w2 t2] eqn:Ec;
      try discriminate.
    apply command_returned in Ec as (c & c2 & Hc2 & -> & ->).
    destruct (answer (State.set_command c (State.set_route v state)) w2)
      as [[o| e |] w3 t3] eqn:Ea; try discriminate.
    apply answer_returned in Ea as (r & c3 & Hc3 & -> & ->).
    unfold after in E; simpl in E. injection E as <- _ <-.
    exists v, r, c1, c3. repeat split; auto. right.
    exists c, c2. repeat split; auto.
    simpl. rewrite <- !app_assoc. reflexivity.
  - rewrite run_from_answer in E.
    destruct (answer (State.set_route v state) w1) as [[o| e |] w3 t3] eqn:Ea;
      try discriminate.
    apply answer_returned in Ea as (r & c3 & Hc3 & -> & ->).
    unfold after in E; simpl in E. injection E as <- _ <-.
    exists v, r, c1, c3. repeat split; auto. left. repeat split; auto.
    simpl. rewrite <- !app_assoc. reflexivity.
Qed.

Lemma returned_call_quiet (c : list event) :
  returned_call c -> nodes_of c = [] /\ writes_of c = [].
Proof.
  intros (sp & p & mt & temp & w & w0 & text & E).
  pose proof (model_call_quiet sp p mt temp w) as Hq. now rewrite E in Hq.
Qed.

Lemma lookups_of_app (t u : list event) :
  lookups_of (t ++ u) = (lookups_of t ++ lookups_of u)%list.
Proof. apply filter_app. Qed.

Lemma no_lookups (t : list event) :
  Forall (fun e => is_lookup e = false) t -> lookups_of t = [].
Proof.
  induction 1 as [|e t He _ IH]; [reflexivity|].
  unfold lookups_of in *. simpl. now rewrite He.
Qed.

(** A returned call has looked the version up exactly once. *)
Lemma returned_call_lookups (c : list event) :
  returned_call c -> lookups_of c = [EvGet models_url _headers].
Proof.
  intros (sp & p & mt & temp & w & w0 & text & E).
  destruct TOKEN as [|ch tok] eqn:Etok.
  { unfold run_replicate_model in E. rewrite Etok in E. discriminate. }
  rewrite run_replicate_model_stages in E by congruence.
  apply bind_ret_inv in E as (vid & w1 & t1 & t2 & Ev & E & ->).
  apply bind_ret_inv in E as (pid & w2 & t3 & t4 & Es & Ep & ->).
  assert (Hsleep : forall e, sleep_event e -> is_lookup e = false)
    by (intros []; simpl; tauto).
  assert (H1 : t1 = [EvGet models_url _headers]).
  { unfold lookup_version in Ev. rewrite bind_run in Ev.
    destruct w as [|[r|] w]; simpl in Ev; try discriminate.
    destruct (raise_for_status r) as [e|[]]; simpl in Ev; [discriminate|].
    destruct (response_json r) as [e|j]; simpl in Ev; [discriminate|].
    destruct (Py.getitem j "latest_version") as [e|lv]; simpl in Ev; [discriminate|].
    destruct (Py.getitem lv "id"); simpl in Ev; [discriminate|].
    now injection Ev as _ _ <-. }
  assert (H3 : lookups_of t3 = []).
  { apply no_lookups.
    assert (Hl : Forall (fun e => is_lookup e = false)
                   (log (submit vid sp p mt temp w1))).
    { apply request_loop_log; [reflexivity|]. intros r.
      eapply Forall_impl; [exact Hsleep|apply create_prediction_events]. }
    now rewrite Es in Hl. }
  assert (H4 : lookups_of t4 = []).
  { apply no_lookups.
    assert (Hl : Forall (fun e => is_lookup e = false) (log (poll pid w2))).
    { apply request_loop_log; [reflexivity|]. intros r.
      eapply Forall_impl; [exact Hsleep|apply poll_prediction_events]. }
    now rewrite Ep in Hl. }
  rewrite !lookups_of_app, H3, H4, H1. reflexivity.
Qed.


(** X13. The final state of a finished run from the initial state of a
    prompt [q] still
    holds [q] as its user input, holds a route and a reply, and holds a
    command record exactly when the branch function sends that very state to
    [command], which is exactly when the run went through the command
    node. *)
Theorem final_state_invariant
    (q : string) (w w' : world) (out : State.t) (t : list event) :
  CHAT_GRAPH (State.initial q) w = Result (Ret out) w' t ->
  State.user_input out = Some q
  /\ (exists v, State.route out = Some v)
  /\ (exists r, State.reply out = Some r)
  /\ (State.command out = None <-> route_decision out = inr "answer")
  /\ (State.command out <> None <-> route_decision out = inr "command")
  /\ (State.command out <> None <-> nodes_of t = ["router"; "command"; "answer"]).
Proof.
  intros E.
  destruct (finished_run_parts E) as (v & r & c1 & c3 & Hc1 & Hc3 & Hcase).
  destruct (returned_call_quiet Hc1) as [Hn1 _].
  destruct (returned_call_quiet Hc3) as [Hn3 _].
  destruct Hcase as [(-> & -> & Ed) | (c & c2 & Hc2 & -> & -> & Ed)].
  - assert (Hnodes : nodes_of (EvNode "router" :: c1 ++ [EvWrite "route"; EvNode "answer"]
                                 ++ c3 ++ [EvWrite "reply"]) = ["router"; "answer"]).
    { change (EvNode "router" :: c1 ++ [EvWrite "route"; EvNode "answer"]
                ++ c3 ++ [EvWrite "reply"])%list
        with ([EvNode "router"] ++ c1 ++ [EvWrite "route"; EvNode "answer"]
                ++ c3 ++ [EvWrite "reply"])%list.
      rewrite !nodes_of_app, Hn1, Hn3. reflexivity. }
    rewrite Hnodes.
    change (route_decision (State.set_reply r (State.set_route v (State.initial q))))
      with (route_decision (State.set_route v (State.initial q))).
    rewrite Ed. simpl.
    repeat split; eauto; try discriminate; try congruence.
  - destruct (returned_call_quiet Hc2) as [Hn2 _].
    assert (Hnodes : nodes_of (EvNode "router" :: c1 ++ [EvWrite "route"; EvNode "command"]
                                 ++ c2 ++ [EvWrite "command"; EvNode "answer"]
                                 ++ c3 ++ [EvWrite "reply"])
                     = ["router"; "command"; "answer"]).
    { change (EvNode "router" :: c1 ++ [EvWrite "route"; EvNode "command"]
                ++ c2 ++ [EvWrite "command"; EvNode "answer"]
                ++ c3 ++ [EvWrite "reply"])%list
        with ([EvNode "router"] ++ c1 ++ [EvWrite "route"; EvNode "command"]
                ++ c2 ++ [EvWrite "command"; EvNode "answer"]
                ++ c3 ++ [EvWrite "reply"])%list.
      rewrite !nodes_of_app, Hn1, Hn2, Hn3. reflexivity. }
    rewrite Hnodes.
    change (route_decision
              (State.set_reply r (State.set_command c (State.set_route v (State.initial q)))))
      with (route_decision (State.set_route v (State.initial q))).
    rewrite Ed. simpl.
    repeat split; eauto; try discriminate; try congruence.
Qed.

(** X14. Every node entered in a finished run has looked the model version
    up once more: the run holds as many lookups as nodes, two on the
    direct path and three through the command node. Nothing is kept from
    one model call to the next. *)
Theorem one_lookup_per_node
    (q : string) (w w' : world) (out : State.t) (t : list event) :
  CHAT_GRAPH (State.initial q) w = Result (Ret out) w' t ->
  List.length (lookups_of t) = List.length (nodes_of t)
  /\ (List.length (lookups_of t) = 2%nat \/ List.length (lookups_of t) = 3%nat).
Proof.
  intros E.
  destruct (finished_run_parts E) as (v & r & c1 & c3 & Hc1 & Hc3 & Hcase).
  destruct (returned_call_quiet Hc1) as [Hn1 _].
  destruct (returned_call_quiet Hc3) as [Hn3 _].
  pose proof (returned_call_lookups Hc1) as Hl1.
  pose proof (returned_call_lookups Hc3) as Hl3.
  destruct Hcase as [(-> & _ & _) | (c & c2 & Hc2 & -> & _ & _)].
  - change (EvNode "router" :: c1 ++ [EvWrite "route"; EvNode "answer"]
              ++ c3 ++ [EvWrite "reply"])%list
      with ([EvNode "router"] ++ c1 ++ [EvWrite "route"; EvNode "answer"]
              ++ c3 ++ [EvWrite "reply"])%list.
    rewrite !nodes_of_app, !lookups_of_app, Hn1, Hn3, Hl1, Hl3. simpl. auto.
  - destruct (returned_call_quiet Hc2) as [Hn2 _].
    pose proof (returned_call_lookups Hc2) as Hl2.
    change (EvNode "router" :: c1 ++ [EvWrite "route"; EvNode "command"]
              ++ c2 ++ [EvWrite "command"; EvNode "answer"]
              ++ c3 ++ [EvWrite "reply"])%list
      with ([EvNode "router"] ++ c1 ++ [EvWrite "route"; EvNode "command"]
              ++ c2 ++ [EvWrite "command"; EvNode "answer"]
              ++ c3 ++ [EvWrite "reply"])%list.
    rewrite !nodes_of_app, !lookups_of_app, Hn1, Hn2, Hn3, Hl1, Hl2, Hl3. simpl. auto.
Qed.

Lemma chat_reply_non_object (out : State.t) (v : value) :
  State.command out = Some v -> Py.is_dict v = false ->
  chat_reply out = inl AttributeError.
Proof.
  intros Ec Hv. unfold chat_reply. rewrite Ec.
  destruct v; simpl in *; congruence.
Qed.

(** X15. When the command record of the final state is not a JSON object,
    the handler raises [AttributeError] after the whole graph has run: the
    reply of the answer node has been produced and assigned, and is lost. *)
Theorem handler_fails_on_non_object_command
    (q : string) (w w' : world) (out : State.t) (t : list event) (v : value) :
  CHAT_GRAPH (State.initial q) w = Result (Ret out) w' t ->
  State.command out = Some v ->
  Py.is_dict v = false ->
  chat q w = Result (Raise AttributeError) w' t
  /\ nodes_of t = ["router"; "command"; "answer"]
  /\ In "reply" (writes_of t)
  /\ (exists r, State.reply out = Some r).
Proof.
  intros E Ec Hv.
  split.
  { unfold chat. rewrite bind_run, E, local_pure_run, (chat_reply_non_object _ Ec Hv).
    unfold after; simpl. now rewrite app_nil_r. }
  destruct (finished_run_parts E) as (v0 & r & c1 & c3 & Hc1 & Hc3 & Hcase).
  destruct (returned_call_quiet Hc1) as [Hn1 Hw1].
  destruct (returned_call_quiet Hc3) as [Hn3 Hw3].
  destruct Hcase as [(-> & -> & Ed) | (c & c2 & Hc2 & -> & -> & Ed)];
    [discriminate Ec|].
  destruct (returned_call_quiet Hc2) as [Hn2 Hw2].
  change (EvNode "router" :: c1 ++ [EvWrite "route"; EvNode "command"]
            ++ c2 ++ [EvWrite "command"; EvNode "answer"]
            ++ c3 ++ [EvWrite "reply"])%list
    with ([EvNode "router"] ++ c1 ++ [EvWrite "route"; EvNode "command"]
            ++ c2 ++ [EvWrite "command"; EvNode "answer"]
            ++ c3 ++ [EvWrite "reply"])%list.
  rewrite !nodes_of_app, !writes_of_app, Hn1, Hn2, Hn3, Hw1, Hw2, Hw3. simpl.
  repeat split; eauto.
Qed.

(** X16. A reply of the handler passes on what the final state holds: the
    reply text of the answer node, and the [generated_command] and
    [missing_fields] of the command record as they were stored, with the
    empty text and the empty list only when the key is absent (a stored
    null is passed on as null). *)
Theorem handler_passes_on_the_command_record
    (q : string) (w w' : world) (t : list event) (resp : value) :
  chat q w = Result (Ret resp) w' t ->
  exists out r,
    CHAT_GRAPH (State.initial q) w = Result (Ret out) w' t
    /\ State.reply out = Some r
    /\ Py.getitem resp "reply" = inr (VStr r)
    /\ Py.getitem resp "generated_command"
       = inr (match command_field out "generated_command" with
              | Some v => v
              | None => VStr EmptyString
              end)
    /\ Py.getitem resp "missing_fields"
       = inr (match command_field out "missing_fields" with
              | Some v => v
              | None => VList []
              end).
Proof.
  intros E. unfold chat in E.
  apply bind_ret_inv in E as (out & w1 & t1 & t2 & Eg & El & ->).
  rewrite local_pure_run in El.
  destruct (chat_reply out) as [e|resp0] eqn:Ec; [discriminate|].
  injection El as -> -> <-. rewrite app_nil_r.
  destruct (finished_run_parts Eg) as (v & r & c1 & c3 & _ & _ & Hcase).
  assert (Hr : State.reply out = Some r)
    by (destruct Hcase as [(_ & -> & _) | (c & c2 & _ & _ & -> & _)]; reflexivity).
  exists out, r. split; [exact Eg|]. split; [exact Hr|].
  revert Ec. unfold chat_reply, command_field. rewrite Hr.
  destruct (State.command out) as [c|].
  - destruct c; simpl; try discriminate.
    destruct (Py.lookup "generated_command" items) as [g|];
      destruct (Py.lookup "missing_fields" items) as [m|]; simpl;
      try destruct (Py.truthy g); simpl; intros [= <-]; repeat split.
  - simpl. intros [= <-]. repeat split.
Qed.

(** X17. Whatever the state and the replies, and however the run ends, the
    nodes entered and the keys assigned are one of seven pairs of
    [run_shapes]: the router is entered first, the command node only
    before the answer node, no node twice, and a key is assigned at most
    once and only by its own node, after the keys of the nodes before
    it. *)
Theorem every_run_has_a_known_shape (state : State.t) (w : world) :
  In (nodes_of (log (CHAT_GRAPH state w)), writes_of (log (CHAT_GRAPH state w)))
     run_shapes.
Proof.
  rewrite CHAT_GRAPH_run, log_after.
  pose proof (router_log state w) as [Hn Hw].
  destruct (router state w) as [[s1| e |] w1 t1]; cbn [log outcome_of] in *.
  2, 3: (rewrite nodes_of_app, writes_of_app, Hn, Hw; simpl; auto).
  pose proof (route_decision_cases s1) as Hc.
  destruct (route_decision s1) as [e|target]; cbn [log].
  { rewrite nodes_of_app, writes_of_app, Hn, Hw. simpl. auto. }
  rewrite log_after.
  destruct Hc as [-> | ->].
  - rewrite run_from_command, log_after.
    pose proof (command_log s1 w1) as [Hcn Hcw].
    destruct (command s1 w1) as [[s2| e |] w2 t2]; cbn [log outcome_of] in *.
    2, 3: (rewrite !nodes_of_app, !writes_of_app, Hn, Hw, Hcn, Hcw;
           simpl; auto 10).
    rewrite log_after.
    pose proof (answer_log s2 w2) as [Han Haw].
    rewrite !nodes_of_app, !writes_of_app, Hn, Hw, Hcn, Hcw, Han, Haw.
    destruct (outcome_of (answer s2 w2)); simpl; auto 10.
  - rewrite run_from_answer, log_after.
    pose proof (answer_log s1 w1) as [Han Haw].
    rewrite !nodes_of_app, !writes_of_app, Hn, Hw, Han, Haw.
    destruct (outcome_of (answer s1 w1)); simpl; auto 10.
Qed.

End FinishedRuns.

(** ** The further properties, run *)

Module Checks.

#[local] Existing Instance Demo.platform.

Example escapeHtml_tagged :
  escapeHtml Fixtures.tagged
  = "&lt;b title=&quot;it&#39;s&quot;&gt;Tom &amp; Jerry&lt;/b&gt;".
Proof. reflexivity. Qed.

Lemma escapeHtml_has_no_markup_witness :
  ~ In "<"%char (list_ascii_of_string (escapeHtml Fixtures.tagged)).
Proof.
  apply (escapeHtml_has_no_markup Fixtures.tagged (c := "<"%char)).
  simpl. auto.
Defined.

Lemma escapeHtml_injective_witness :
  "Tom & Jerry" = "Tom " ++ "& Jerry".
Proof.
  apply (@escapeHtml_injective "Tom & Jerry" ("Tom " ++ "& Jerry")).
  reflexivity.
Defined.

Lemma no_token_witness :
  outcome_of (@chat Fixtures.no_token Demo.question_A Demo.world_A)
  = Raise (RuntimeError
             "REPLICATE_API_TOKEN is empty. Please set it in .env or environment variables.")
  /\ rest (@chat Fixtures.no_token Demo.question_A Demo.world_A) = Demo.world_A.
Proof.
  rewrite (@no_token_no_request Fixtures.no_token Demo.question_A Demo.world_A eq_refl).
  split; reflexivity.
Defined.

Lemma lookup_error_witness :
  run_replicate_model ROUTER_PROMPT Demo.question_A 120 float_0_2
    (Got (Demo.too_many None) :: Demo.world_A)
  = Result (Raise (HTTPStatusError 429)) Demo.world_A [EvGet models_url _headers].
Proof.
  apply (@lookup_error_is_not_retried Demo.platform ROUTER_PROMPT Demo.question_A 120
           float_0_2 (Demo.too_many None) Demo.world_A).
  - discriminate.
  - reflexivity.
Defined.

Lemma submission_error_witness :
  outcome_of (submit (VStr "v1") ROUTER_PROMPT Demo.question_A 120 float_0_2
                (map Got Demo.limited_D ++ [Got Fixtures.server_error])%list)
  = Raise (HTTPStatusError 500).
Proof.
  rewrite (@submission_error_is_not_retried Demo.platform (VStr "v1") ROUTER_PROMPT
             Demo.question_A 120 float_0_2 Demo.limited_D Fixtures.server_error []).
  - reflexivity.
  - repeat constructor; vm_compute; intros F; discriminate F.
  - discriminate.
  - reflexivity.
Defined.

Lemma plain_path_witness :
  let w := (Got Fixtures.version_found :: map Got Demo.limited_D ++ Got Fixtures.accepted
              :: map Got Demo.waiting_job ++ Got Demo.finished_job
              :: [Got Fixtures.server_error])%list in
  outcome_of (run_replicate_model ROUTER_PROMPT Demo.question_A 120 float_0_2 w)
  = Ret "Hello, world"
  /\ rest (run_replicate_model ROUTER_PROMPT Demo.question_A 120 float_0_2 w)
     = [Got Fixtures.server_error]
  /\ map (fun body => Py.getitem body "version")
       (posts_of (log (run_replicate_model ROUTER_PROMPT Demo.question_A 120
                         float_0_2 w)))
     = [inr (VStr "v1"); inr (VStr "v1"); inr (VStr "v1")].
Proof.
  intros w. unfold w.
  destruct (@model_call_plain_path Demo.platform ROUTER_PROMPT Demo.question_A 120
              float_0_2 Fixtures.version_found
              [("latest_version", VDict [("id", VStr "v1")])] [("id", VStr "v1")]
              (VStr "v1") Demo.limited_D Fixtures.accepted
              [("id", VStr "p1"); ("status", VStr "starting")] (VStr "p1")
              Demo.waiting_job Demo.finished_job ["Hello"; ", "; "world"]
              [Got Fixtures.server_error]) as (E & _).
  - discriminate.
  - reflexivity.
  - reflexivity.
  - reflexivity.
  - reflexivity.
  - repeat constructor; vm_compute; intros F; discriminate F.
  - reflexivity.
  - reflexivity.
  - reflexivity.
  - repeat constructor;
      (eexists; split; [eexists; split; reflexivity|repeat split; reflexivity]).
  - eexists. split; reflexivity.
  - reflexivity.
  - rewrite E. repeat split; reflexivity.
Defined.

Lemma polling_ignores_status_code_witness :
  outcome_of (poll (VStr "p1") [Got Fixtures.finished_under_500]) = Ret "Hello, world".
Proof.
  destruct (@polling_ignores_status_code Demo.platform (VStr "p1")
              [Got Fixtures.finished_under_500] [Got Demo.finished_job]) as [E _].
  - repeat constructor.
  - rewrite E. vm_compute. reflexivity.
Defined.

Lemma poll_without_status_witness :
  outcome_of (poll (VStr "p1") (map Got Demo.waiting_job ++ [Got Fixtures.not_found])%list)
  = Raise (KeyError "status").
Proof.
  rewrite (@poll_without_status_raises_key_error Demo.platform (VStr "p1")
             Demo.waiting_job Fixtures.not_found [("detail", VStr "Not found")] []).
  - reflexivity.
  - repeat constructor;
      (eexists; split; [eexists; split; reflexivity|repeat split; reflexivity]).
  - reflexivity.
  - reflexivity.
Defined.

Lemma client_error_witness :
  CHAT_GRAPH (State.initial Demo.question_A) [Got Fixtures.server_error]
  = Result (Raise (HTTPStatusError 500)) [] [EvNode "router"; EvGet models_url _headers].
Proof.
  destruct (@client_error_ends_the_run Demo.platform (State.initial Demo.question_A)
              Demo.question_A eq_refl) as [Hr _].
  destruct (Hr [Got Fixtures.server_error] (HTTPStatusError 500) []
              [EvGet models_url _headers]) as [_ E].
  - vm_compute. reflexivity.
  - exact E.
Defined.

Lemma final_state_witness :
  exists out,
    outcome_of (CHAT_GRAPH (State.initial Demo.question_B) Demo.world_B) = Ret out
    /\ State.user_input out = Some Demo.question_B
    /\ State.command out <> None.
Proof.
  assert (E : exists out,
            CHAT_GRAPH (State.initial Demo.question_B) Demo.world_B
            = Result (Ret out)
                (rest (CHAT_GRAPH (State.initial Demo.question_B) Demo.world_B))
                (log (CHAT_GRAPH (State.initial Demo.question_B) Demo.world_B)))
    by (eexists; vm_compute; reflexivity).
  destruct E as [out E]. exists out.
  destruct (final_state_invariant E) as (Hq & _ & _ & _ & _ & Hc).
  split; [rewrite E; reflexivity|]. split; [exact Hq|].
  apply Hc. vm_compute. reflexivity.
Defined.

Lemma one_lookup_per_node_witness :
  List.length (lookups_of (log (CHAT_GRAPH (State.initial Demo.question_B) Demo.world_B)))
  = List.length (nodes_of (log (CHAT_GRAPH (State.initial Demo.question_B) Demo.world_B))).
Proof.
  assert (E : exists out,
            CHAT_GRAPH (State.initial Demo.question_B) Demo.world_B
            = Result (Ret out)
                (rest (CHAT_GRAPH (State.initial Demo.question_B) Demo.world_B))
                (log (CHAT_GRAPH (State.initial Demo.question_B) Demo.world_B)))
    by (eexists; vm_compute; reflexivity).
  destruct E as [out E].
  exact (proj1 (one_lookup_per_node E)).
Defined.

Lemma handler_fails_witness :
  outcome_of (chat Demo.question_B Fixtures.world_array_command) = Raise AttributeError.
Proof.
  assert (E : exists out,
            CHAT_GRAPH (State.initial Demo.question_B) Fixtures.world_array_command
            = Result (Ret out)
                (rest (CHAT_GRAPH (State.initial Demo.question_B)
                         Fixtures.world_array_command))
                (log (CHAT_GRAPH (State.initial Demo.question_B)
                        Fixtures.world_array_command))
            /\ State.command out = Some (VList []))
    by (eexists; split; vm_compute; reflexivity).
  destruct E as (out & E & Ec).
  destruct (handler_fails_on_non_object_command E Ec eq_refl) as [Ech _].
  rewrite Ech. reflexivity.
Defined.

Lemma handler_passes_on_witness :
  exists out r,
    outcome_of (CHAT_GRAPH (State.initial Demo.question_C) Demo.world_C) = Ret out
    /\ State.reply out = Some r.
Proof.
  destruct (@handler_passes_on_the_command_record Demo.platform
              Demo.question_C Demo.world_C (rest (chat Demo.question_C Demo.world_C))
              (log (chat Demo.question_C Demo.world_C))
              (VDict [("reply", VStr "Which compartment?");
                      ("tool_used", VBool true);
                      ("generated_command", VStr EmptyString);
                      ("missing_fields", VList [VStr "compartment_id"])]))
    as (out & r & Eg & Hr & _).
  { vm_compute. reflexivity. }
  exists out, r. split; [rewrite Eg; reflexivity|exact Hr].
Defined.

End Checks.
